(** * SimCerner: NEWS2 scoring and deterioration alert engine

    A shallow embedding of
      - [types/news.ts]            (threshold tables and risk constants),
      - [services/newsCalculator.ts] (sub-scores, aggregate, risk),
      - [hooks/useNewsScore.ts]    (two-point trend),
      - [services/alertEngine.ts]  (alert ledger with id counter),
    followed by the properties of the specification that concern them.

    Modelling conventions.
      - A JavaScript [number] is [NaN], one of the two infinities or a finite
        value; finite values are exact rationals ([Q]), so a decimal literal
        such as [35.1] is the rational 351/10.  Relational operators are
        false as soon as an operand is [NaN].
      - Object literals used as tables are association lists in source order
        (the order [Object.entries] enumerates).  Reading [obj[key]] looks at
        the own properties first and then at [Object.prototype].
      - A function that may throw returns [result].
      - The module-level variables [alerts] and [alertIdCounter] of the alert
        engine are the two fields of [AlertStore]; functions that touch them
        take the store and return the new one.
      - [new Date().toISOString()] is the argument [now].
      - Template-literal messages are kept as the template together with the
        interpolated values ([AlertMessage]). *)

From Stdlib Require Import ZArith QArith Lqa Lia Bool List String Ascii.
From Stdlib Require Import DecimalString DecimalNat FinFun.
From Stdlib Require Import Permutation Sorted.
Import ListNotations.
Local Open Scope string_scope.
Local Open Scope list_scope.
Local Open Scope Z_scope.

Set Implicit Arguments.

(* ------------------------------------------------------------------ *)
(** ** JavaScript values used by the engine                            *)
(* ------------------------------------------------------------------ *)

Inductive number : Type :=
| NaN
| NegInfinity
| Infinity
| Fin (q : Q).

(** [a <= b] on JavaScript numbers. *)
Definition num_le (a b : number) : bool :=
  match a, b with
  | NaN, _ | _, NaN => false
  | NegInfinity, _ => true
  | _, Infinity => true
  | Fin x, Fin y => Qle_bool x y
  | _, _ => false
  end.

(** [a >= b] is [b <= a] (both are false on [NaN]). *)
Definition num_ge (a b : number) : bool := num_le b a.

Definition num_of_Z (z : Z) : number := Fin (inject_Z z).

(** A function that returns normally or throws. *)
Inductive result (A : Type) : Type :=
| Ok (a : A)
| Throw (e : string).
Arguments Ok {A} a.
Arguments Throw {A} e.

Definition bind {A B} (m : result A) (k : A -> result B) : result B :=
  match m with
  | Ok a => k a
  | Throw e => Throw e
  end.

Notation "x <- m ;; k" := (bind m (fun x => k))
  (at level 61, m at next level, right associativity).

(** Property names every object literal inherits from [Object.prototype]. *)
Definition Object_prototype_keys : list string :=
  [ "constructor"; "__proto__"; "hasOwnProperty"; "isPrototypeOf";
    "propertyIsEnumerable"; "toLocaleString"; "toString"; "valueOf";
    "__defineGetter__"; "__defineSetter__"; "__lookupGetter__";
    "__lookupSetter__" ].

Fixpoint own_property {A} (o : list (string * A)) (key : string) : option A :=
  match o with
  | [] => None
  | (k, a) :: rest => if String.eqb k key then Some a else own_property rest key
  end.

Definition is_inherited (key : string) : bool :=
  existsb (String.eqb key) Object_prototype_keys.

(** What [obj[key]] evaluates to on an object literal [obj]. *)
Inductive property (A : Type) : Type :=
| Own (a : A)          (* an entry of the literal *)
| Inherited            (* a member of Object.prototype: an object, truthy *)
| Undefined.
Arguments Own {A} a.
Arguments Inherited {A}.
Arguments Undefined {A}.

Definition get {A} (o : list (string * A)) (key : string) : property A :=
  match own_property o key with
  | Some a => Own a
  | None => if is_inherited key then Inherited else Undefined
  end.

(* ------------------------------------------------------------------ *)
(** ** types/news.ts                                                   *)
(* ------------------------------------------------------------------ *)

Inductive ClinicalRisk : Type := Low | LowMedium | Medium | High.

Definition EscalationLevel := Z.

Record ScoreThresholdBand : Type := mkBand {
  min : number;
  max : number;
  score : Z
}.

Record ParameterThresholds : Type := mkParam {
  parameter : string;
  label : string;
  bands : list ScoreThresholdBand
}.

Definition NEWS2_THRESHOLDS : list (string * ParameterThresholds) :=
  [ ("respiratoryRate", mkParam "rr" "Respiratory Rate"
      [ mkBand NegInfinity (Fin 8) 3;
        mkBand (Fin 9) (Fin 11) 1;
        mkBand (Fin 12) (Fin 20) 0;
        mkBand (Fin 21) (Fin 24) 2;
        mkBand (Fin 25) Infinity 3 ]);
    ("spo2Scale1", mkParam "spo2" "SpO2 Scale 1"
      [ mkBand NegInfinity (Fin 91) 3;
        mkBand (Fin 92) (Fin 93) 2;
        mkBand (Fin 94) (Fin 95) 1;
        mkBand (Fin 96) Infinity 0 ]);
    ("spo2Scale2OnO2", mkParam "spo2" "SpO2 Scale 2 (on supplemental O2)"
      [ mkBand NegInfinity (Fin 83) 3;
        mkBand (Fin 84) (Fin 85) 2;
        mkBand (Fin 86) (Fin 87) 1;
        mkBand (Fin 88) (Fin 92) 0;
        mkBand (Fin 93) Infinity 0 ]);
    ("spo2Scale2OnAir", mkParam "spo2" "SpO2 Scale 2 (on room air)"
      [ mkBand NegInfinity (Fin 83) 3;
        mkBand (Fin 84) (Fin 85) 2;
        mkBand (Fin 86) (Fin 87) 1;
        mkBand (Fin 88) (Fin 92) 0;
        mkBand (Fin 93) (Fin 94) 1;
        mkBand (Fin 95) (Fin 96) 2;
        mkBand (Fin 97) Infinity 3 ]);
    ("supplementalO2", mkParam "supplementalO2" "Supplemental Oxygen"
      [ mkBand (Fin 0) (Fin 0) 0;
        mkBand (Fin 1) (Fin 1) 2 ]);
    ("temperature", mkParam "temp" "Temperature"
      [ mkBand NegInfinity (Fin 35) 3;
        mkBand (Fin (351 # 10)) (Fin 36) 1;
        mkBand (Fin (361 # 10)) (Fin 38) 0;
        mkBand (Fin (381 # 10)) (Fin 39) 1;
        mkBand (Fin (391 # 10)) Infinity 2 ]);
    ("systolicBP", mkParam "bp_sys" "Systolic Blood Pressure"
      [ mkBand NegInfinity (Fin 90) 3;
        mkBand (Fin 91) (Fin 100) 2;
        mkBand (Fin 101) (Fin 110) 1;
        mkBand (Fin 111) (Fin 219) 0;
        mkBand (Fin 220) Infinity 3 ]);
    ("heartRate", mkParam "hr" "Heart Rate"
      [ mkBand NegInfinity (Fin 40) 3;
        mkBand (Fin 41) (Fin 50) 1;
        mkBand (Fin 51) (Fin 90) 0;
        mkBand (Fin 91) (Fin 110) 1;
        mkBand (Fin 111) (Fin 130) 2;
        mkBand (Fin 131) Infinity 3 ]);
    ("consciousness", mkParam "avpu" "Consciousness (AVPU)"
      [ mkBand (Fin 0) (Fin 0) 0;
        mkBand (Fin 1) (Fin 3) 3 ]) ].

Definition AVPU_NUMERIC_MAP : list (string * number) :=
  [ ("A", Fin 0); ("C", Fin 1); ("V", Fin 2); ("P", Fin 3); ("U", Fin 3) ].

Module CLINICAL_RISK_THRESHOLDS.

Definition high : number := Fin 7.

Definition medium : number := Fin 5.

Definition lowMediumSingleParam : number := Fin 3.

End CLINICAL_RISK_THRESHOLDS.

(* ------------------------------------------------------------------ *)
(** ** services/newsCalculator.ts                                      *)
(* ------------------------------------------------------------------ *)

(** [value >= b.min && value <= b.max] *)
Definition in_band (value : number) (b : ScoreThresholdBand) : bool :=
  num_ge value (min b) && num_le value (max b).

(** [calculateSubScore(parameter, value)].  An inherited property is truthy,
    has no [bands] member, and [undefined.find] throws a TypeError. *)
Definition calculateSubScore (param : string) (value : number) : result Z :=
  match get NEWS2_THRESHOLDS param with
  | Undefined => Ok 0
  | Inherited => Throw "TypeError"
  | Own thresholds =>
      match find (in_band value) (bands thresholds) with
      | Some b => Ok (score b)
      | None => Ok 0
      end
  end.

Definition getClinicalRisk (totalScore : number) (hasRedScore : bool) : ClinicalRisk :=
  if num_ge totalScore CLINICAL_RISK_THRESHOLDS.high then High
  else if num_ge totalScore CLINICAL_RISK_THRESHOLDS.medium then Medium
  else if hasRedScore then LowMedium
  else Low.

Definition getEscalationLevel (risk : ClinicalRisk) : EscalationLevel :=
  match risk with
  | Low => 0
  | LowMedium => 1
  | Medium => 2
  | High => 3
  end.

(* ------------------------------------------------------------------ *)
(** ** types/patient.ts                                                *)
(* ------------------------------------------------------------------ *)

(** [VitalSign]: every field but [datetime] is optional; [None] is an absent
    ([undefined] or [null]) field.  At run time [avpu] holds whatever string
    the patient file carried ([toStr(vs.avpu) as AVPUScale]). *)
Record VitalSign : Type := mkVital {
  datetime : string;
  temp : option number;
  hr : option number;
  rr : option number;
  bp_sys : option number;
  bp_dia : option number;
  spo2 : option number;
  avpu : option string;
  supplementalO2 : option bool;
  newsScore : option number;
  painScore : option number
}.

Record Patient : Type := mkPatient {
  mrn : string
}.

(** [value: number | string] of a sub-score. *)
Inductive SubValue : Type :=
| NumValue (n : number)
| StrValue (s : string).

(** [NEWS2SubScore]; the fields [parameter], [value] and [score] carry the
    prefix [ss_] to keep them apart from those of the threshold records.
    Scores have type [0 | 1 | 2 | 3] in the source: they are integers. *)
Record NEWS2SubScore : Type := mkSub {
  ss_parameter : string;
  ss_value : SubValue;
  ss_score : Z
}.

(** [totalScore] is a sum of sub-scores, hence an integer. *)
Record NEWS2Result : Type := mkResult {
  totalScore : Z;
  subScores : list NEWS2SubScore;
  clinicalRisk : ClinicalRisk;
  escalationLevel : EscalationLevel
}.

(* ------------------------------------------------------------------ *)
(** ** calculateNEWS2                                                  *)
(* ------------------------------------------------------------------ *)

(** Truthiness of an optional boolean: [undefined] is falsy. *)
Definition truthy (b : option bool) : bool :=
  match b with
  | Some true => true
  | _ => false
  end.

(** The operand [AVPU_NUMERIC_MAP[vital.avpu] ?? 0]: [??] replaces only
    [undefined], so an inherited member of [Object.prototype] is kept. *)
Inductive operand : Type :=
| Num (n : number)
| Obj.

Definition avpuNumeric (lbl : string) : operand :=
  match get AVPU_NUMERIC_MAP lbl with
  | Own n => Num n
  | Inherited => Obj
  | Undefined => Num (Fin 0)
  end.

(** [>=] and [<=] convert an operand to a number; a function or a plain
    object converts to [NaN]. *)
Definition to_number (o : operand) : number :=
  match o with
  | Num n => n
  | Obj => NaN
  end.

(** One guarded block [if (vital.f != null) { ... subScores.push(...) }]. *)
Definition push_numeric (key name : string) (field : option number)
    (subs : list NEWS2SubScore) : result (list NEWS2SubScore) :=
  match field with
  | None => Ok subs
  | Some v =>
      s <- calculateSubScore key v ;;
      Ok (subs ++ [mkSub name (NumValue v) s])
  end.

Definition calculateNEWS2 (vital : VitalSign) : result NEWS2Result :=
  let subs := [] in
  (* Respiratory Rate *)
  subs <- push_numeric "respiratoryRate" "Respiratory Rate" (rr vital) subs ;;
  (* SpO2, always Scale 1 *)
  subs <- push_numeric "spo2Scale1" "SpO2" (spo2 vital) subs ;;
  (* Supplemental oxygen: a bare block, not guarded by a presence test *)
  subs <- (let numericValue := if truthy (supplementalO2 vital) then Fin 1 else Fin 0 in
           s <- calculateSubScore "supplementalO2" numericValue ;;
           Ok (subs ++ [mkSub "Supplemental O2"
                          (StrValue (if truthy (supplementalO2 vital) then "Yes" else "No"))
                          s])) ;;
  (* Temperature *)
  subs <- push_numeric "temperature" "Temperature" (temp vital) subs ;;
  (* Systolic blood pressure *)
  subs <- push_numeric "systolicBP" "Systolic BP" (bp_sys vital) subs ;;
  (* Heart rate *)
  subs <- push_numeric "heartRate" "Heart Rate" (hr vital) subs ;;
  (* Consciousness (AVPU) *)
  subs <- match avpu vital with
          | None => Ok subs
          | Some lbl =>
              s <- calculateSubScore "consciousness" (to_number (avpuNumeric lbl)) ;;
              Ok (subs ++ [mkSub "Consciousness" (StrValue lbl) s])
          end ;;
  (* Aggregate *)
  let total := fold_left (fun sum s => sum + ss_score s) subs 0 in
  let hasRedScore := existsb (fun s => ss_score s =? 3) subs in
  let risk := getClinicalRisk (num_of_Z total) hasRedScore in
  let level := getEscalationLevel risk in
  Ok (mkResult total subs risk level).

(* ------------------------------------------------------------------ *)
(** ** hooks/useNewsScore.ts                                           *)
(* ------------------------------------------------------------------ *)

Inductive NewsTrend : Type := improving | stable | worsening.

Record UseNewsScoreResult : Type := mkUse {
  latestScore : option NEWS2Result;
  riskLevel : option ClinicalRisk;
  trend : NewsTrend;
  scoreHistory : list NEWS2Result
}.

(** [vitals.map((v) => calculateNEWS2(v))]; the first throw aborts the map. *)
Fixpoint map_result {A B} (f : A -> result B) (l : list A) : result (list B) :=
  match l with
  | [] => Ok []
  | a :: rest =>
      b <- f a ;;
      bs <- map_result f rest ;;
      Ok (b :: bs)
  end.

(** The body of the [useMemo] callback; memoisation does not change the
    value. *)
Definition useNewsScore (vitals : list VitalSign) : result UseNewsScoreResult :=
  match vitals with
  | [] => Ok (mkUse None None stable [])
  | _ =>
      history <- map_result calculateNEWS2 vitals ;;
      match history with
      | [] => Throw "TypeError"   (* scoreHistory[0].clinicalRisk on undefined *)
      | latest :: older =>
          let tr :=
            match older with
            | [] => stable
            | prev :: _ =>
                let current := totalScore latest in
                let previous := totalScore prev in
                let delta := current - previous in
                if delta >? 0 then worsening
                else if delta <? 0 then improving
                else stable
            end in
          Ok (mkUse (Some latest) (Some (clinicalRisk latest)) tr history)
      end
  end.

(* ------------------------------------------------------------------ *)
(** ** services/alertEngine.ts                                         *)
(* ------------------------------------------------------------------ *)

Module AlertEngine.

Inductive AlertSeverity : Type := info | warning | critical.

Inductive AlertType : Type :=
| vital_out_of_range
| news_score_elevated
| news_score_critical
| deterioration_trend
| overdue_observation.

(** The four message templates of the engine with their interpolated parts. *)
Inductive AlertMessage : Type :=
| CriticalVitalMsg (label : string) (value : number)
    (* `CRITICAL: ${label} = ${value} (outside safe range)` *)
| WarningVitalMsg (label : string) (value : number)
    (* `WARNING: ${label} = ${value} (approaching limits)` *)
| NewsScoreMsg (total : Z) (risk : ClinicalRisk) (level : EscalationLevel)
    (* `NEWS2 Score ${total} - ${risk} risk. Escalation level ${level}.` *)
| RedScoreMsg (parameters : string).
    (* `RED score in: ${parameters}. Requires increased monitoring.` *)

Record Alert : Type := mkAlert {
  id : string;
  type : AlertType;
  severity : AlertSeverity;
  message : AlertMessage;
  timestamp : string;
  acknowledged : bool;
  patientMrn : string
}.

Record VitalAlertThreshold : Type := mkThreshold {
  warningLow : option number;
  warningHigh : option number;
  criticalLow : option number;
  criticalHigh : option number;
  label : string
}.

Definition VITAL_ALERT_THRESHOLDS : list (string * VitalAlertThreshold) :=
  [ ("hr", mkThreshold (Some (Fin 50)) (Some (Fin 110)) (Some (Fin 40)) (Some (Fin 130))
             "Heart Rate");
    ("rr", mkThreshold (Some (Fin 11)) (Some (Fin 21)) (Some (Fin 8)) (Some (Fin 25))
             "Respiratory Rate");
    ("bp_sys", mkThreshold (Some (Fin 100)) (Some (Fin 180)) (Some (Fin 90)) (Some (Fin 220))
             "Systolic BP");
    ("spo2", mkThreshold (Some (Fin 94)) None (Some (Fin 91)) None
             "SpO2");
    ("temp", mkThreshold (Some (Fin (355 # 10))) (Some (Fin (385 # 10)))
                         (Some (Fin 35)) (Some (Fin (391 # 10)))
             "Temperature") ].

(** The module-level variables [alerts] and [alertIdCounter]. *)
Record AlertStore : Type := mkStore {
  alerts : list Alert;
  alertIdCounter : nat
}.

(** The store when the module is loaded. *)
Definition initialStore : AlertStore := mkStore [] 0.

(** [String(n)] for a counter value. *)
Definition String_of (n : nat) : string :=
  NilEmpty.string_of_uint (Nat.to_uint n).

Fixpoint repeat_string (n : nat) (fill : string) : string :=
  match n with
  | O => ""
  | S k => (fill ++ repeat_string k fill)%string
  end.

(** [s.padStart(targetLength, fill)] for a one-character [fill]. *)
Definition padStart (targetLength : nat) (fill : string) (s : string) : string :=
  (repeat_string (targetLength - String.length s) fill ++ s)%string.

(** The id printed for a counter value. *)
Definition formatAlertId (n : nat) : string :=
  ("ALT-" ++ padStart 4 "0" (String_of n))%string.

(** [generateAlertId()]: increments the counter, then formats it. *)
Definition generateAlertId (st : AlertStore) : string * AlertStore :=
  let c := S (alertIdCounter st) in
  (formatAlertId c, mkStore (alerts st) c).

(** [vital[key]] for the keys of the threshold table. *)
Definition vital_field (vital : VitalSign) (key : string) : option number :=
  if String.eqb key "hr" then hr vital
  else if String.eqb key "rr" then rr vital
  else if String.eqb key "bp_sys" then bp_sys vital
  else if String.eqb key "bp_dia" then bp_dia vital
  else if String.eqb key "spo2" then spo2 vital
  else if String.eqb key "temp" then temp vital
  else if String.eqb key "newsScore" then newsScore vital
  else if String.eqb key "painScore" then painScore vital
  else None.

(** [limit != null && value <= limit] *)
Definition at_or_below (value : number) (limit : option number) : bool :=
  match limit with
  | Some l => num_le value l
  | None => false
  end.

(** [limit != null && value >= limit] *)
Definition at_or_above (value : number) (limit : option number) : bool :=
  match limit with
  | Some l => num_ge value l
  | None => false
  end.

Definition in_critical_range (t : VitalAlertThreshold) (value : number) : bool :=
  at_or_below value (criticalLow t) || at_or_above value (criticalHigh t).

Definition in_warning_range (t : VitalAlertThreshold) (value : number) : bool :=
  at_or_below value (warningLow t) || at_or_above value (warningHigh t).

(** The [for ... of Object.entries(VITAL_ALERT_THRESHOLDS)] loop, threading
    [newAlerts] and the store. *)
Fixpoint checkVitals_loop (entries : list (string * VitalAlertThreshold))
    (patient : Patient) (vital : VitalSign) (now : string)
    (newAlerts : list Alert) (st : AlertStore) : list Alert * AlertStore :=
  match entries with
  | [] => (newAlerts, st)
  | (key, thresholds) :: rest =>
      match vital_field vital key with
      | None => checkVitals_loop rest patient vital now newAlerts st   (* continue *)
      | Some value =>
          if in_critical_range thresholds value then
            let '(i, st') := generateAlertId st in
            checkVitals_loop rest patient vital now
              (newAlerts ++ [mkAlert i vital_out_of_range critical
                               (CriticalVitalMsg (label thresholds) value)
                               now false (mrn patient)])
              st'                                                       (* continue *)
          else if in_warning_range thresholds value then
            let '(i, st') := generateAlertId st in
            checkVitals_loop rest patient vital now
              (newAlerts ++ [mkAlert i vital_out_of_range warning
                               (WarningVitalMsg (label thresholds) value)
                               now false (mrn patient)])
              st'
          else checkVitals_loop rest patient vital now newAlerts st
      end
  end.

Definition checkVitals (patient : Patient) (vital : VitalSign) (now : string)
    (st : AlertStore) : list Alert * AlertStore :=
  let '(newAlerts, st') :=
    checkVitals_loop VITAL_ALERT_THRESHOLDS patient vital now [] st in
  (newAlerts, mkStore (alerts st' ++ newAlerts) (alertIdCounter st')).

(** [riskMap[score.clinicalRisk]] *)
Definition riskMap (risk : ClinicalRisk) : option (AlertSeverity * AlertType) :=
  match risk with
  | Low => None
  | LowMedium => Some (info, news_score_elevated)
  | Medium => Some (warning, news_score_elevated)
  | High => Some (critical, news_score_critical)
  end.

Definition is_High (risk : ClinicalRisk) : bool :=
  match risk with
  | High => true
  | _ => false
  end.

Definition checkNEWSScore (score : NEWS2Result) (patientMrn : string) (now : string)
    (st : AlertStore) : list Alert * AlertStore :=
  let newAlerts := [] in
  let '(newAlerts, st) :=
    match riskMap (clinicalRisk score) with
    | Some (sev, ty) =>
        let '(i, st') := generateAlertId st in
        (newAlerts ++ [mkAlert i ty sev
                         (NewsScoreMsg (totalScore score) (clinicalRisk score)
                                       (escalationLevel score))
                         now false patientMrn], st')
    | None => (newAlerts, st)
    end in
  let redParams := filter (fun s => ss_score s =? 3) (subScores score) in
  let '(newAlerts, st) :=
    if (0 <? List.length redParams)%nat && negb (is_High (clinicalRisk score)) then
      let '(i, st') := generateAlertId st in
      (newAlerts ++ [mkAlert i news_score_elevated warning
                       (RedScoreMsg (String.concat ", " (map ss_parameter redParams)))
                       now false patientMrn], st')
    else (newAlerts, st) in
  (newAlerts, mkStore (alerts st ++ newAlerts) (alertIdCounter st)).

Definition acknowledgeAlert (alertId : string) (st : AlertStore) : AlertStore :=
  mkStore
    (map (fun a => if String.eqb (id a) alertId
                   then mkAlert (id a) (type a) (severity a) (message a)
                                (timestamp a) true (patientMrn a)
                   else a)
         (alerts st))
    (alertIdCounter st).

Definition clearAlerts (st : AlertStore) : AlertStore := mkStore [] 0.

(** The calls that write the store, and a session as a sequence of them
    starting from the freshly loaded module. *)
Inductive call : Type :=
| CheckVitals (patient : Patient) (vital : VitalSign) (now : string)
| CheckNEWSScore (score : NEWS2Result) (patientMrn : string) (now : string)
| AcknowledgeAlert (alertId : string)
| ClearAlerts.

Definition step (st : AlertStore) (c : call) : AlertStore :=
  match c with
  | CheckVitals p v now => snd (checkVitals p v now st)
  | CheckNEWSScore r m now => snd (checkNEWSScore r m now st)
  | AcknowledgeAlert i => acknowledgeAlert i st
  | ClearAlerts => clearAlerts st
  end.

Definition run (calls : list call) : AlertStore :=
  fold_left step calls initialStore.

(** [array.sort(compareFn)].  The sort is stable and, for a consistent
    comparator, yields the order of the comparator; that list is unique, and
    it is the one this insertion sort builds.  [compareFn a b <= 0] keeps [a]
    before [b]. *)
Fixpoint insert_sorted {A} (compareFn : A -> A -> Z) (x : A) (l : list A) : list A :=
  match l with
  | [] => [x]
  | y :: rest =>
      if compareFn x y <=? 0 then x :: l
      else y :: insert_sorted compareFn x rest
  end.

Definition sort {A} (compareFn : A -> A -> Z) (l : list A) : list A :=
  fold_right (insert_sorted compareFn) [] l.

Section Getters.

(** [a.localeCompare(b)]: negative, zero or positive; its value depends on
    the host's collation. *)
Variable localeCompare : string -> string -> Z.

(** [(a, b) => b.timestamp.localeCompare(a.timestamp)] *)
Definition newest_first (a b : Alert) : Z :=
  localeCompare (timestamp b) (timestamp a).

Definition getActiveAlerts (st : AlertStore) : list Alert :=
  sort newest_first (filter (fun a => negb (acknowledged a)) (alerts st)).

Definition getAllAlerts (st : AlertStore) : list Alert :=
  sort newest_first (alerts st).

End Getters.

(** *** Vocabulary of the statements about alerts *)

(** One iteration of the loop of [checkVitals] on an empty [newAlerts]. *)
Definition entry_alerts (key : string) (thresholds : VitalAlertThreshold)
    (patient : Patient) (vital : VitalSign) (now : string) (st : AlertStore)
  : list Alert * AlertStore :=
  match vital_field vital key with
  | None => ([], st)
  | Some value =>
      if in_critical_range thresholds value then
        let '(i, st') := generateAlertId st in
        ([mkAlert i vital_out_of_range critical
            (CriticalVitalMsg (label thresholds) value) now false (mrn patient)], st')
      else if in_warning_range thresholds value then
        let '(i, st') := generateAlertId st in
        ([mkAlert i vital_out_of_range warning
            (WarningVitalMsg (label thresholds) value) now false (mrn patient)], st')
      else ([], st)
  end.

(** An alert raised for the vital parameter labelled [lbl]. *)
Definition about_label (lbl : string) (a : Alert) : bool :=
  match message a with
  | CriticalVitalMsg l _ | WarningVitalMsg l _ => String.eqb l lbl
  | _ => false
  end.

Definition alerts_about (lbl : string) (l : list Alert) : list Alert :=
  filter (about_label lbl) l.

Definition kind (a : Alert) : AlertType * AlertSeverity := (type a, severity a).

(** What one evaluation may raise for a parameter: critical cutoffs first,
    warning cutoffs only when the value is not critical. *)
Definition vital_outcome (t : VitalAlertThreshold) (field : option number)
  : list (AlertType * AlertSeverity) :=
  match field with
  | None => []
  | Some value =>
      if in_critical_range t value then [(vital_out_of_range, critical)]
      else if in_warning_range t value then [(vital_out_of_range, warning)]
      else []
  end.

Definition labels (entries : list (string * VitalAlertThreshold)) : list string :=
  map (fun e => label (snd e)) entries.

(** The score-threshold alert and the red-parameter alert of
    [checkNEWSScore], told apart by their message template. *)
Definition is_score_alert (a : Alert) : bool :=
  match message a with
  | NewsScoreMsg _ _ _ => true
  | _ => false
  end.

Definition is_red_alert (a : Alert) : bool :=
  match message a with
  | RedScoreMsg _ => true
  | _ => false
  end.

Definition has_red_subscore (score : NEWS2Result) : bool :=
  existsb (fun s => ss_score s =? 3) (subScores score).

(** The counter value printed in an id: the digits after ["ALT-"], leading
    zeros allowed. *)
Definition parseAlertId (s : string) : option nat :=
  match s with
  | String "A" (String "L" (String "T" (String "-" digits))) =>
      option_map Nat.of_uint (NilEmpty.uint_of_string digits)
  | _ => None
  end.

(** What an append leaves behind: the ledger grows by the returned alerts,
    whose ids are the next counter values, in order. *)
Definition appends (st : AlertStore) (r : list Alert * AlertStore) : Prop :=
  alerts (snd r) = alerts st ++ fst r /\
  alertIdCounter (snd r) = (alertIdCounter st + List.length (fst r))%nat /\
  map id (fst r) = map formatAlertId (seq (S (alertIdCounter st)) (List.length (fst r))).

(** The unacknowledged alerts of the ledger, in ledger order. *)
Definition unacknowledged (st : AlertStore) : list Alert :=
  filter (fun a => negb (acknowledged a)) (alerts st).

(** Whether an unacknowledged alert of the ledger carries the id. *)
Definition pending (alertId : string) (st : AlertStore) : bool :=
  existsb (fun a => String.eqb (id a) alertId && negb (acknowledged a)) (alerts st).

(** A comparator that orders its arguments consistently. *)
Definition consistent (compare : string -> string -> Z) : Prop :=
  (forall a b, 0 < compare a b -> compare b a <= 0) /\
  (forall a b c, compare a b <= 0 -> compare b c <= 0 -> compare a c <= 0).

(** Everything an alert says apart from its acknowledgement flag. *)
Definition content (a : Alert)
  : string * AlertType * AlertSeverity * AlertMessage * string * string :=
  (id a, type a, severity a, message a, timestamp a, patientMrn a).

(** What an alert says apart from its id, time stamp and flag. *)
Definition finding (a : Alert) : AlertType * AlertSeverity * AlertMessage * string :=
  (type a, severity a, message a, patientMrn a).

(** A comparator of strings by length, used as a concrete consistent
    comparator. *)
Definition by_length (a b : string) : Z :=
  Z.of_nat (String.length a) - Z.of_nat (String.length b).

End AlertEngine.

(* ------------------------------------------------------------------ *)
(** ** Vocabulary of the statements                                    *)
(* ------------------------------------------------------------------ *)

(** The score [calculateSubScore] reads off a band list: the first band that
    contains the value, 0 when none does ([band?.score ?? 0]). *)
Definition band_score (bs : list ScoreThresholdBand) (value : number) : Z :=
  match find (in_band value) bs with
  | Some b => score b
  | None => 0
  end.

(** The bands of a table entry ([[]] for a key that is not in the table). *)
Definition bands_of (key : string) : list ScoreThresholdBand :=
  match own_property NEWS2_THRESHOLDS key with
  | Some th => bands th
  | None => []
  end.

(** The bands of a list that contain a value. *)
Definition bands_containing (bs : list ScoreThresholdBand) (value : number)
  : list ScoreThresholdBand :=
  filter (in_band value) bs.

(** The continuous physiological parameters of the threshold table. *)
Definition continuous_parameters : list string :=
  [ "respiratoryRate"; "spo2Scale1"; "spo2Scale2OnO2"; "spo2Scale2OnAir";
    "temperature"; "systolicBP"; "heartRate" ].

(** [a < b] on numbers (false on [NaN]). *)
Definition num_lt (a b : number) : bool :=
  match a, b with
  | NaN, _ | _, NaN => false
  | NegInfinity, NegInfinity => false
  | NegInfinity, _ => true
  | Infinity, _ => false
  | Fin _, NegInfinity => false
  | Fin _, Infinity => true
  | Fin x, Fin y => negb (Qle_bool y x)
  end.

(** Every band ends strictly before each later band begins. *)
Fixpoint separated (bs : list ScoreThresholdBand) : bool :=
  match bs with
  | [] => true
  | b :: rest => forallb (fun b' => num_lt (max b) (min b')) rest && separated rest
  end.

(** How many sub-scores of a breakdown carry a given parameter name. *)
Definition count_param (name : string) (subs : list NEWS2SubScore) : nat :=
  List.length (filter (fun s => String.eqb (ss_parameter s) name) subs).

Definition present {A} (field : option A) : bool :=
  match field with
  | Some _ => true
  | None => false
  end.

(** Whether the observation carries the field behind a sub-score name. *)
Definition field_present (v : VitalSign) (name : string) : bool :=
  if String.eqb "Respiratory Rate" name then present (rr v)
  else if String.eqb "SpO2" name then present (spo2 v)
  else if String.eqb "Supplemental O2" name then present (supplementalO2 v)
  else if String.eqb "Temperature" name then present (temp v)
  else if String.eqb "Systolic BP" name then present (bp_sys v)
  else if String.eqb "Heart Rate" name then present (hr v)
  else if String.eqb "Consciousness" name then present (avpu v)
  else false.

(** "Exactly one sub-score per present field, none for an absent field",
    as a property of one observation. *)
Definition one_subscore_per_present_field (v : VitalSign) : Prop :=
  exists r, calculateNEWS2 v = Ok r /\
    forall name, count_param name (subScores r) =
                 if field_present v name then 1%nat else 0%nat.

(** The sub-score of one guarded numeric field. *)
Definition numeric_sub (key name : string) (field : option number) : list NEWS2SubScore :=
  match field with
  | None => []
  | Some value => [mkSub name (NumValue value) (band_score (bands_of key) value)]
  end.

(** The breakdown [calculateNEWS2] builds, block by block. *)
Definition breakdown (v : VitalSign) : list NEWS2SubScore :=
  numeric_sub "respiratoryRate" "Respiratory Rate" (rr v) ++
  numeric_sub "spo2Scale1" "SpO2" (spo2 v) ++
  [mkSub "Supplemental O2"
     (StrValue (if truthy (supplementalO2 v) then "Yes" else "No"))
     (if truthy (supplementalO2 v) then 2 else 0)] ++
  numeric_sub "temperature" "Temperature" (temp v) ++
  numeric_sub "systolicBP" "Systolic BP" (bp_sys v) ++
  numeric_sub "heartRate" "Heart Rate" (hr v) ++
  match avpu v with
  | None => []
  | Some lbl => [mkSub "Consciousness" (StrValue lbl)
                   (band_score (bands_of "consciousness") (to_number (avpuNumeric lbl)))]
  end.

Definition recognized_avpu : list string := [ "A"; "C"; "V"; "P"; "U" ].

(** The count [calculateNEWS2] realises: the oxygen block is unconditional,
    the six other blocks are guarded by the presence of their field. *)
Definition expected_count (v : VitalSign) (name : string) : nat :=
  if String.eqb "Supplemental O2" name then 1%nat
  else if field_present v name then 1%nat
  else 0%nat.

(* ------------------------------------------------------------------ *)
(** ** newsCalculator.ts: the escalation text                          *)
(* ------------------------------------------------------------------ *)

(** [getEscalationRecommendation]; the [default] branch of the switch is
    outside [ClinicalRisk]. *)
Definition getEscalationRecommendation (risk : ClinicalRisk) : string :=
  match risk with
  | Low => "Continue routine monitoring (minimum 12-hourly observations)"
  | LowMedium => "Increase observation frequency to minimum 1-hourly. Inform registered nurse who must assess the patient. Registered nurse to decide if increased frequency of monitoring and/or escalation of clinical care is required."
  | Medium => "Urgent clinical review by ward-based doctor or acute team nurse. Consider whether escalation of care to team with critical-care skills is needed (e.g. critical care outreach team)."
  | High => "Emergency response. Immediate assessment by clinical team or critical care outreach team. Usually transfer to higher level of care (e.g. ICU/HDU). Clinical review every 30 minutes."
  end.

(* ------------------------------------------------------------------ *)
(** ** components/deterioration and components/doctor-view             *)
(* ------------------------------------------------------------------ *)

(** The computations of the views that consume the calculator; rendering is
    left out. *)

Module NewsScoreCard.

(** [getScoreColour(score)] *)
Definition getScoreColour (score : number) : string :=
  if num_ge score (Fin 7) then "#f44336"
  else if num_ge score (Fin 5) then "#ff9800"
  else "#4caf50".

End NewsScoreCard.

Module ScoreTrendGraph.

Record TrendDataPoint : Type := mkPoint {
  time : string;
  score : Z
}.

(** The [data] memo: [[...vitals].reverse().map(...)], [[]] without vitals. *)
Definition data (vitals : list VitalSign) : result (list TrendDataPoint) :=
  match vitals with
  | [] => Ok []
  | _ =>
      map_result (fun v => r <- calculateNEWS2 v ;; Ok (mkPoint (datetime v) (totalScore r)))
                 (rev vitals)
  end.

(** The domain of the score axis, [domain={[0, 20]}]. *)
Definition YAxis_domain : Z * Z := (0, 20).

End ScoreTrendGraph.

Module VitalSignsFlowsheet.

(** The [newsParam] column of [FLOWSHEET_PARAMS], row by row. *)
Definition FLOWSHEET_PARAMS : list string :=
  [ "Temperature"; "Heart Rate"; "Respiratory Rate"; "Systolic BP"; "SpO2";
    "Consciousness"; "Supplemental O2" ].

(** [vitals.slice(0, maxColumns)] *)
Definition displayVitals (vitals : list VitalSign) (maxColumns : nat) : list VitalSign :=
  firstn maxColumns vitals.

(** [displayVitals.map((v) => calculateNEWS2(v))] *)
Definition newsResults (vitals : list VitalSign) (maxColumns : nat)
  : result (list NEWS2Result) :=
  map_result calculateNEWS2 (displayVitals vitals maxColumns).

(** [getSubScore(result, paramName)]: [sub?.score ?? 0]. *)
Definition getSubScore (r : NEWS2Result) (paramName : string) : Z :=
  match find (fun s => String.eqb (ss_parameter s) paramName) (subScores r) with
  | Some sub => ss_score sub
  | None => 0
  end.

(** [score >= 7 ? 3 : score >= 5 ? 2 : score >= 1 ? 1 : 0] of the total row. *)
Definition scoreLevel (score : number) : Z :=
  if num_ge score (Fin 7) then 3
  else if num_ge score (Fin 5) then 2
  else if num_ge score (Fin 1) then 1
  else 0.

End VitalSignsFlowsheet.

Module DoctorView.

(** [latestNews] (and [latestResult] of DeteriorationView): the result of
    [patient.vitals[0]], [null] without vitals. *)
Definition latestNews (vitals : list VitalSign) : result (option NEWS2Result) :=
  match vitals with
  | [] => Ok None
  | v :: _ => r <- calculateNEWS2 v ;; Ok (Some r)
  end.

(** Whether a cell of the NEWS2 row gets the class [abnormal]:
    [result.totalScore >= 7]. *)
Definition abnormal (r : NEWS2Result) : bool :=
  num_ge (num_of_Z (totalScore r)) (Fin 7).

End DoctorView.

(* ------------------------------------------------------------------ *)
(** ** More vocabulary                                                 *)
(* ------------------------------------------------------------------ *)

(** The sum [subScores.reduce((sum, s) => sum + s.score, 0)]. *)
Definition total_of (subs : list NEWS2SubScore) : Z :=
  fold_left (fun sum s => sum + ss_score s) subs 0.

(** The order in which [calculateNEWS2] visits the parameters. *)
Definition scoring_order : list string :=
  [ "Respiratory Rate"; "SpO2"; "Supplemental O2"; "Temperature";
    "Systolic BP"; "Heart Rate"; "Consciousness" ].

(** The observation reduced to what the calculator reads: the six scored
    fields and the truthiness of the oxygen flag. *)
Definition scored_part (v : VitalSign) : VitalSign :=
  mkVital "" (temp v) (hr v) (rr v) (bp_sys v) None (spo2 v) (avpu v)
          (Some (truthy (supplementalO2 v))) None None.

Definition with_oxygen (flag : bool) (v : VitalSign) : VitalSign :=
  mkVital (datetime v) (temp v) (hr v) (rr v) (bp_sys v) (bp_dia v) (spo2 v)
          (avpu v) (Some flag) (newsScore v) (painScore v).

(** The threshold-table key and the alert-table key of the five vital signs
    both modules look at. *)
Definition shared_vitals : list (string * string) :=
  [ ("heartRate", "hr"); ("respiratoryRate", "rr"); ("systolicBP", "bp_sys");
    ("spo2Scale1", "spo2"); ("temperature", "temp") ].

(** The score of one optional numeric field: 0 when the field is absent. *)
Definition field_score (key : string) (field : option number) : Z :=
  match field with
  | Some value => band_score (bands_of key) value
  | None => 0
  end.

(** The score behind a flowsheet cell, by the name of its row. *)
Definition cell_score (v : VitalSign) (name : string) : Z :=
  if String.eqb "Respiratory Rate" name then field_score "respiratoryRate" (rr v)
  else if String.eqb "SpO2" name then field_score "spo2Scale1" (spo2 v)
  else if String.eqb "Supplemental O2" name then
    (if truthy (supplementalO2 v) then 2 else 0)
  else if String.eqb "Temperature" name then field_score "temperature" (temp v)
  else if String.eqb "Systolic BP" name then field_score "systolicBP" (bp_sys v)
  else if String.eqb "Heart Rate" name then field_score "heartRate" (hr v)
  else if String.eqb "Consciousness" name then
    match avpu v with
    | Some lbl => band_score (bands_of "consciousness") (to_number (avpuNumeric lbl))
    | None => 0
    end
  else 0.

(* ------------------------------------------------------------------ *)
(** ** patientLoader.ts: the Logger                                    *)
(* ------------------------------------------------------------------ *)

Module Logger.

Inductive LogLevel : Type := DEBUG | INFO | WARN | ERROR.

Section Entries.

(** The type of the logged [data: unknown]; [None] is [null], the default
    when no data is passed. *)
Variable D : Type.

Record LogEntry : Type := mkEntry {
  timestamp : string;
  level : LogLevel;
  message : string;
  data : option D
}.

(** [log(level, message, data)] on the ring buffer [logs]; [now] is
    [new Date().toISOString()].  [logs.slice(-1_000)] keeps the last 1000
    entries.  The line written to the console is not part of the state. *)
Definition log (lvl : LogLevel) (msg : string) (d : option D) (now : string)
    (logs : list LogEntry) : list LogEntry :=
  let logs := logs ++ [mkEntry now lvl msg d] in
  if Nat.ltb 1000 (List.length logs)
  then skipn (List.length logs - 1000) logs
  else logs.

Definition info (msg : string) (d : option D) := log INFO msg d.

Definition warn (msg : string) (d : option D) := log WARN msg d.

Definition error (msg : string) (d : option D) := log ERROR msg d.

Definition debug (msg : string) (d : option D) := log DEBUG msg d.

(** A run of the logger: the entries in the order they are logged, starting
    from the empty buffer. *)
Definition logged (entries : list LogEntry) : list LogEntry :=
  fold_left (fun logs e => log (level e) (message e) (data e) (timestamp e) logs)
            entries [].

End Entries.

End Logger.

(* ------------------------------------------------------------------ *)
(** ** hooks/useClock.ts: formatting                                   *)
(* ------------------------------------------------------------------ *)

Module Clock.

(** What the formatting helpers read of a [Date]: the values of its
    getters, in local time (years from 0 on). *)
Record Date : Type := mkDate {
  getFullYear : nat;
  getMonth : nat;
  getDate : nat;
  getHours : nat;
  getMinutes : nat;
  getSeconds : nat
}.

(** [pad2(n)]: [String(n).padStart(2, '0')]. *)
Definition pad2 (n : nat) : string :=
  AlertEngine.padStart 2 "0" (AlertEngine.String_of n).

Definition MONTHS : list string :=
  [ "Jan"; "Feb"; "Mar"; "Apr"; "May"; "Jun";
    "Jul"; "Aug"; "Sep"; "Oct"; "Nov"; "Dec" ].

(** [formatDate(d)], "DD-Mon-YYYY"; an index outside [MONTHS] reads
    [undefined]. *)
Definition formatDate (d : Date) : string :=
  (pad2 (getDate d) ++ "-" ++ nth (getMonth d) MONTHS "undefined" ++ "-"
   ++ AlertEngine.String_of (getFullYear d))%string.

(** [formatTime(d)], "HH:MM:SS". *)
Definition formatTime (d : Date) : string :=
  (pad2 (getHours d) ++ ":" ++ pad2 (getMinutes d) ++ ":" ++ pad2 (getSeconds d))%string.

(** The fields of a valid [Date] as its getters return them. *)
Definition valid (d : Date) : bool :=
  Nat.ltb (getMonth d) 12 && Nat.leb 1 (getDate d) && Nat.leb (getDate d) 31 &&
  Nat.ltb (getHours d) 24 && Nat.ltb (getMinutes d) 60 && Nat.ltb (getSeconds d) 60.

Definition time_of_day (d : Date) : nat * nat * nat :=
  (getHours d, getMinutes d, getSeconds d).

End Clock.


(* ================================================================== *)
(** * Properties                                                       *)
(* ================================================================== *)

(** ** Comparison of numbers *)

Lemma num_le_Fin (x y : Q) : num_le (Fin x) (Fin y) = true <-> (x <= y)%Q.
Proof. simpl. apply Qle_bool_iff. Qed.

Lemma num_le_Fin_false (x y : Q) : num_le (Fin x) (Fin y) = false <-> (y < x)%Q.
Proof.
  simpl. split; intro H.
  - apply Qnot_le_lt. intro Hle. apply Qle_bool_iff in Hle. congruence.
  - destruct (Qle_bool x y) eqn:E; [| reflexivity].
    apply Qle_bool_iff in E. exfalso. apply (Qlt_not_le _ _ H E).
Qed.

Lemma num_ge_Fin (x y : Q) : num_ge (Fin x) (Fin y) = true <-> (y <= x)%Q.
Proof. unfold num_ge. apply num_le_Fin. Qed.

Lemma num_ge_Fin_false (x y : Q) : num_ge (Fin x) (Fin y) = false <-> (x < y)%Q.
Proof. unfold num_ge. apply num_le_Fin_false. Qed.

(** ** Risk classification *)

(** C1. For every (finite) total score [t] and red-score flag [r],
    [getClinicalRisk t r] is High iff [t >= 7], Medium iff [5 <= t < 7],
    Low-Medium iff [t < 5] and [r] holds, and Low iff [t < 5] and [r] does not
    hold: the total-score thresholds take precedence over the red flag. *)
Theorem getClinicalRisk_bands (t : Q) (r : bool) :
  (getClinicalRisk (Fin t) r = High <-> (7 <= t)%Q) /\
  (getClinicalRisk (Fin t) r = Medium <-> (5 <= t /\ t < 7)%Q) /\
  (getClinicalRisk (Fin t) r = LowMedium <-> (t < 5)%Q /\ r = true) /\
  (getClinicalRisk (Fin t) r = Low <-> (t < 5)%Q /\ r = false).
Proof.
  unfold getClinicalRisk, CLINICAL_RISK_THRESHOLDS.high, CLINICAL_RISK_THRESHOLDS.medium.
  destruct (num_ge (Fin t) (Fin 7)) eqn:E7;
    [ apply num_ge_Fin in E7
    | apply num_ge_Fin_false in E7;
      destruct (num_ge (Fin t) (Fin 5)) eqn:E5;
        [ apply num_ge_Fin in E5 | apply num_ge_Fin_false in E5; destruct r ] ];
    (split; [| split; [| split]]); (split; [intros H | intros H]);
    try discriminate; try reflexivity; try lra;
    try (destruct H as [H1 H2]; try discriminate; lra); auto.
Qed.

(** ** Sub-scores *)

Lemma calculateSubScore_own (key : string) (th : ParameterThresholds) (value : number) :
  own_property NEWS2_THRESHOLDS key = Some th ->
  calculateSubScore key value = Ok (band_score (bands th) value).
Proof.
  intros H. unfold calculateSubScore, get, band_score. rewrite H.
  destruct (find (in_band value) (bands th)); reflexivity.
Qed.

Lemma calculateSubScore_unknown (key : string) (value : number) :
  own_property NEWS2_THRESHOLDS key = None ->
  is_inherited key = false ->
  calculateSubScore key value = Ok 0.
Proof.
  intros H1 H2. unfold calculateSubScore, get. rewrite H1, H2. reflexivity.
Qed.

Lemma calculateSubScore_inherited (key : string) (value : number) :
  is_inherited key = true ->
  calculateSubScore key value = Throw "TypeError".
Proof.
  intros H. unfold calculateSubScore, get.
  assert (Hown : own_property NEWS2_THRESHOLDS key = None).
  { unfold is_inherited in H. apply existsb_exists in H.
    destruct H as [k [Hin Heq]]. apply String.eqb_eq in Heq. subst k.
    simpl in Hin.
    repeat (destruct Hin as [Hin | Hin]; [subst key; reflexivity |]).
    contradiction. }
  rewrite Hown, H. reflexivity.
Qed.

(** C9. The key ["constructor"] has no entry in the threshold table, yet
    [calculateSubScore "constructor" 42] does not return 0: the lookup finds
    the member inherited from [Object.prototype], which is truthy and has no
    [bands], and reading [.find] of [undefined] throws. *)
Theorem calculateSubScore_unknown_key_throws :
  own_property NEWS2_THRESHOLDS "constructor" = None /\
  calculateSubScore "constructor" (Fin 42) = Throw "TypeError" /\
  calculateSubScore "nonExistentParam" (Fin 42) = Ok 0.
Proof. repeat split. Qed.

(** ** Bands *)

Lemma num_le_lt_trans (v m m' : number) :
  num_le v m = true -> num_lt m m' = true -> num_le m' v = false.
Proof.
  destruct v as [| | |x], m as [| | |y], m' as [| | |z]; simpl;
    try discriminate; try reflexivity.
  intros Hxy Hyz. apply Qle_bool_iff in Hxy. apply negb_true_iff in Hyz.
  destruct (Qle_bool z x) eqn:E; [| reflexivity].
  apply Qle_bool_iff in E.
  assert (Hzy : (z <= y)%Q) by lra.
  apply Qle_bool_iff in Hzy. congruence.
Qed.

Lemma in_band_excludes_later (v : number) (b b' : ScoreThresholdBand) :
  in_band v b = true -> num_lt (max b) (min b') = true -> in_band v b' = false.
Proof.
  unfold in_band, num_ge. intros Hb Hlt.
  apply andb_true_iff in Hb. destruct Hb as [_ Hmax].
  rewrite (num_le_lt_trans _ _ _ Hmax Hlt). reflexivity.
Qed.

(** Separated bands never overlap: a value lies in at most one of them. *)
Lemma separated_at_most_one (bs : list ScoreThresholdBand) (v : number) :
  separated bs = true -> (List.length (bands_containing bs v) <= 1)%nat.
Proof.
  unfold bands_containing.
  induction bs as [| b rest IH]; simpl; intros Hsep.
  - lia.
  - apply andb_true_iff in Hsep. destruct Hsep as [Hall Hrest].
    destruct (in_band v b) eqn:Hb.
    + assert (Hnone : filter (in_band v) rest = []).
      { rewrite forallb_forall in Hall.
        clear IH Hrest. induction rest as [| b' rest' IHr]; [reflexivity |].
        simpl. rewrite (in_band_excludes_later _ _ _ Hb (Hall b' (or_introl eq_refl))).
        apply IHr. intros x Hx. apply Hall. right. exact Hx. }
      rewrite Hnone. simpl. lia.
    + apply IH. exact Hrest.
Qed.

(** The "no overlaps" half of the partition property holds for every
    continuous parameter and every number. *)
Lemma continuous_bands_do_not_overlap :
  Forall (fun key => forall v : number,
            (List.length (bands_containing (bands_of key) v) <= 1)%nat)
         continuous_parameters.
Proof.
  unfold continuous_parameters.
  repeat (apply Forall_cons;
          [ intros v; apply separated_at_most_one; reflexivity | ]).
  apply Forall_nil.
Qed.

(** Whole-number readings are covered: each lies in exactly one band of the
    six integer-edged tables. *)
Lemma integer_readings_in_one_band (z : Z) :
  Forall (fun key => List.length (bands_containing (bands_of key) (num_of_Z z)) = 1%nat)
         [ "respiratoryRate"; "spo2Scale1"; "spo2Scale2OnO2"; "spo2Scale2OnAir";
           "systolicBP"; "heartRate" ].
Proof.
  repeat (apply Forall_cons;
          [ unfold bands_containing, bands_of, num_of_Z; cbn;
            cbv [in_band num_ge num_le min max Qle_bool inject_Z Qnum Qden]; cbn;
            repeat match goal with
                   | |- context [Z.leb ?a ?b] =>
                       destruct (Z.leb_spec a b); cbn; try lia
                   end
          | ]).
  apply Forall_nil.
Qed.

(** Temperatures charted in tenths of a degree are scored by the published
    bands. *)
Lemma temperature_score_tenths (z : Z) :
  calculateSubScore "temperature" (Fin (z # 10)) =
  Ok (if z <=? 350 then 3
      else if z <=? 360 then 1
      else if z <=? 380 then 0
      else if z <=? 390 then 1
      else 2).
Proof.
  rewrite (@calculateSubScore_own "temperature" _ (Fin (z # 10)) eq_refl).
  f_equal. unfold band_score. cbn.
  cbv [in_band num_ge num_le min max Qle_bool Qnum Qden]; cbn.
  repeat match goal with
         | |- context [Z.leb ?a ?b] => destruct (Z.leb_spec a b); cbn; try lia
         end; reflexivity.
Qed.

(** C3. A temperature of 35.05 lies in the claimed band (35.0, 36.0], whose
    score is 1, but in none of the table's bands ([.., 35.0] and
    [35.1, 36.0]): [calculateSubScore] and [calculateNEWS2] give it the
    Temperature sub-score 0. *)
Theorem temperature_between_bands_scores_zero :
  (35 < 3505 # 100 /\ 3505 # 100 <= 36)%Q /\
  bands_containing (bands_of "temperature") (Fin (3505 # 100)) = [] /\
  calculateSubScore "temperature" (Fin (3505 # 100)) = Ok 0 /\
  exists r,
    calculateNEWS2 (mkVital "2026-02-17T08:00:00" (Some (Fin (3505 # 100)))
                      None None None None None None None None None) = Ok r /\
    subScores r = [ mkSub "Supplemental O2" (StrValue "No") 0;
                    mkSub "Temperature" (NumValue (Fin (3505 # 100))) 0 ].
Proof.
  split; [split; reflexivity || (intro H; discriminate H) |].
  split; [reflexivity |]. split; [reflexivity |].
  eexists. split; reflexivity.
Qed.

(** C4. The band lists leave gaps: a respiratory rate of 8.5 lies in no band
    of its table, and so does one value of each other continuous parameter;
    [calculateSubScore] scores such a value 0. *)
Theorem bands_leave_gaps :
  bands_containing (bands_of "respiratoryRate") (Fin (17 # 2)) = [] /\
  calculateSubScore "respiratoryRate" (Fin (17 # 2)) = Ok 0 /\
  Forall (fun kv => bands_containing (bands_of (fst kv)) (Fin (snd kv)) = [])
         [ ("respiratoryRate", 17 # 2); ("spo2Scale1", 183 # 2);
           ("spo2Scale2OnO2", 167 # 2); ("spo2Scale2OnAir", 167 # 2);
           ("temperature", 3505 # 100); ("systolicBP", 181 # 2);
           ("heartRate", 261 # 2) ].
Proof.
  split; [reflexivity |]. split; [reflexivity |].
  repeat (apply Forall_cons; [reflexivity |]). apply Forall_nil.
Qed.

(** ** The full observation *)

Lemma calculateSubScore_table (key : string) (value : number) :
  present (own_property NEWS2_THRESHOLDS key) = true ->
  calculateSubScore key value = Ok (band_score (bands_of key) value).
Proof.
  unfold bands_of. destruct (own_property NEWS2_THRESHOLDS key) as [th |] eqn:E.
  - intros _. apply calculateSubScore_own. exact E.
  - discriminate.
Qed.

Lemma push_numeric_eq (key name : string) (field : option number)
    (subs : list NEWS2SubScore) :
  present (own_property NEWS2_THRESHOLDS key) = true ->
  push_numeric key name field subs = Ok (subs ++ numeric_sub key name field).
Proof.
  intros Hkey. unfold push_numeric, numeric_sub. destruct field as [value |].
  - rewrite (calculateSubScore_table _ value Hkey). reflexivity.
  - rewrite app_nil_r. reflexivity.
Qed.

(** [calculateNEWS2] never throws, and its result is the block-by-block
    breakdown with the aggregate, risk and escalation level derived from it. *)
Lemma calculateNEWS2_eq (v : VitalSign) :
  calculateNEWS2 v =
  let subs := breakdown v in
  let total := fold_left (fun sum s => sum + ss_score s) subs 0 in
  let risk := getClinicalRisk (num_of_Z total) (existsb (fun s => ss_score s =? 3) subs) in
  Ok (mkResult total subs risk (getEscalationLevel risk)).
Proof.
  unfold calculateNEWS2, breakdown.
  repeat (rewrite push_numeric_eq by reflexivity; cbn [bind]).
  rewrite (calculateSubScore_table "supplementalO2" _ eq_refl). cbn [bind].
  repeat (rewrite push_numeric_eq by reflexivity; cbn [bind]).
  destruct (avpu v) as [lbl |];
    [ rewrite (calculateSubScore_table "consciousness" _ eq_refl) | ];
    cbn [bind]; rewrite <- ?app_assoc, ?app_nil_r; cbn [app];
    destruct (truthy (supplementalO2 v)); reflexivity.
Qed.

Lemma count_param_app (name : string) (a b : list NEWS2SubScore) :
  count_param name (a ++ b) = (count_param name a + count_param name b)%nat.
Proof. unfold count_param. rewrite filter_app, length_app. reflexivity. Qed.

Lemma count_param_single (name n : string) (value : SubValue) (s : Z) :
  count_param name [mkSub n value s] = if String.eqb n name then 1%nat else 0%nat.
Proof.
  unfold count_param. cbn [filter ss_parameter].
  destruct (String.eqb n name); reflexivity.
Qed.

Lemma count_param_numeric_sub (name key n : string) (field : option number) :
  count_param name (numeric_sub key n field) =
  if String.eqb n name then (if present field then 1%nat else 0%nat) else 0%nat.
Proof.
  destruct field as [value |]; unfold numeric_sub, present.
  - apply count_param_single.
  - destruct (String.eqb n name); reflexivity.
Qed.

Lemma count_param_breakdown (v : VitalSign) (name : string) :
  count_param name (breakdown v) = expected_count v name.
Proof.
  unfold breakdown, expected_count, field_present.
  rewrite !count_param_app, !count_param_numeric_sub, count_param_single.
  assert (Havpu :
    count_param name
      match avpu v with
      | Some lbl => [mkSub "Consciousness" (StrValue lbl)
                       (band_score (bands_of "consciousness")
                                   (to_number (avpuNumeric lbl)))]
      | None => []
      end
    = if String.eqb "Consciousness" name
      then (if present (avpu v) then 1%nat else 0%nat) else 0%nat).
  { destruct (avpu v) as [lbl |]; unfold present.
    - apply count_param_single.
    - destruct (String.eqb "Consciousness" name); reflexivity. }
  rewrite Havpu. clear Havpu.
  destruct (present (rr v)), (present (spo2 v)), (present (supplementalO2 v)),
    (present (temp v)), (present (bp_sys v)), (present (hr v)), (present (avpu v));
    repeat match goal with
           | |- context [String.eqb ?lit name] =>
               destruct (String.eqb_spec lit name) as [<- | _]; [reflexivity |]
           end;
    reflexivity.
Qed.

(** C2, as the code has it.  [calculateNEWS2] always returns; its breakdown
    holds exactly one sub-score for each present field among respiratory
    rate, SpO2, temperature, systolic BP, heart rate and consciousness and
    none for an absent one of these; it always holds exactly one
    'Supplemental O2' sub-score, 'Yes' scoring 2 when the flag is true and
    'No' scoring 0 when the flag is false or absent. *)
Theorem calculateNEWS2_subscore_per_field (v : VitalSign) :
  exists r,
    calculateNEWS2 v = Ok r /\
    (forall name, count_param name (subScores r) = expected_count v name) /\
    In (mkSub "Supplemental O2"
          (StrValue (if truthy (supplementalO2 v) then "Yes" else "No"))
          (if truthy (supplementalO2 v) then 2 else 0))
       (subScores r) /\
    totalScore r = fold_left (fun sum s => sum + ss_score s) (subScores r) 0.
Proof.
  rewrite calculateNEWS2_eq. eexists. split; [reflexivity |].
  cbn [subScores totalScore]. split; [| split; [| reflexivity]].
  - intros name. apply count_param_breakdown.
  - unfold breakdown. rewrite !in_app_iff. right. right. left. left. reflexivity.
Qed.

(** C2, counterexample.  An observation that records only a heart rate has no
    supplemental-oxygen flag, yet its breakdown holds a 'Supplemental O2'
    sub-score ('No', score 0): the claim fails for this observation. *)
Lemma absent_oxygen_flag_is_scored :
  let v := mkVital "31-Dec-2025 16:00" None (Some (Fin 78)) None None None None
                   None None None None in
  supplementalO2 v = None /\
  (exists r, calculateNEWS2 v = Ok r /\
             subScores r = [ mkSub "Supplemental O2" (StrValue "No") 0;
                             mkSub "Heart Rate" (NumValue (Fin 78)) 0 ]) /\
  ~ one_subscore_per_present_field v.
Proof.
  cbv zeta. split; [reflexivity |]. split.
  - eexists. split; reflexivity.
  - intros [r [Hr Hcount]]. vm_compute in Hr. injection Hr as <-.
    specialize (Hcount "Supplemental O2"). vm_compute in Hcount. discriminate.
Qed.

(** ** Consciousness *)

Lemma avpuNumeric_unrecognized (lbl : string) :
  ~ In lbl recognized_avpu ->
  avpuNumeric lbl = if is_inherited lbl then Obj else Num (Fin 0).
Proof.
  intros Hnot. unfold avpuNumeric, get.
  assert (Hown : own_property AVPU_NUMERIC_MAP lbl = None).
  { unfold AVPU_NUMERIC_MAP, own_property.
    repeat match goal with
           | |- context [String.eqb ?lit lbl] =>
               destruct (String.eqb_spec lit lbl) as [<- | _];
                 [ exfalso; apply Hnot; unfold recognized_avpu; simpl; tauto |]
           end.
    reflexivity. }
  rewrite Hown. destruct (is_inherited lbl); reflexivity.
Qed.

(** The recognized labels: Alert scores 0, every other one scores 3. *)
Lemma recognized_avpu_scores :
  map (fun lbl => calculateSubScore "consciousness" (to_number (avpuNumeric lbl)))
      recognized_avpu
  = [Ok 0; Ok 3; Ok 3; Ok 3; Ok 3].
Proof. reflexivity. Qed.

(** C10, as the code has it.  When the consciousness field is present and is
    none of 'A', 'C', 'V', 'P', 'U', the band lookup gives it the score 0 and
    [calculateNEWS2] records one Consciousness sub-score, of score 0, for
    it; the label is mapped to the number 0 whenever it does not name a
    member inherited from [Object.prototype]. *)
Theorem unrecognized_avpu_scored_as_alert (v : VitalSign) (lbl : string) :
  avpu v = Some lbl ->
  ~ In lbl recognized_avpu ->
  (is_inherited lbl = false -> avpuNumeric lbl = Num (Fin 0)) /\
  calculateSubScore "consciousness" (to_number (avpuNumeric lbl)) = Ok 0 /\
  exists r,
    calculateNEWS2 v = Ok r /\
    In (mkSub "Consciousness" (StrValue lbl) 0) (subScores r) /\
    count_param "Consciousness" (subScores r) = 1%nat.
Proof.
  intros Havpu Hnot.
  pose proof (avpuNumeric_unrecognized Hnot) as Hnum.
  assert (Hscore : band_score (bands_of "consciousness") (to_number (avpuNumeric lbl)) = 0).
  { rewrite Hnum. destruct (is_inherited lbl); reflexivity. }
  split; [| split].
  - intros Hinh. rewrite Hnum, Hinh. reflexivity.
  - rewrite (calculateSubScore_table "consciousness" _ eq_refl), Hscore. reflexivity.
  - rewrite calculateNEWS2_eq. eexists. split; [reflexivity |].
    cbn [subScores]. split.
    + unfold breakdown. rewrite Havpu, Hscore, !in_app_iff.
      do 6 right. left. reflexivity.
    + rewrite count_param_breakdown. unfold expected_count, field_present.
      rewrite Havpu. reflexivity.
Qed.

Lemma unrecognized_avpu_scored_as_alert_witness :
  let v := mkVital "2026-02-17T08:00:00" None None None None None None
                   (Some "Voice") None None None in
  avpuNumeric "Voice" = Num (Fin 0) /\
  calculateSubScore "consciousness" (to_number (avpuNumeric "Voice")) = Ok 0 /\
  exists r,
    calculateNEWS2 v = Ok r /\
    In (mkSub "Consciousness" (StrValue "Voice") 0) (subScores r) /\
    count_param "Consciousness" (subScores r) = 1%nat.
Proof.
  cbv zeta.
  assert (Hnot : ~ In "Voice" recognized_avpu).
  { unfold recognized_avpu. simpl. intros H.
    repeat (destruct H as [H | H]; [discriminate H |]). exact H. }
  destruct (unrecognized_avpu_scored_as_alert
              (mkVital "2026-02-17T08:00:00" None None None None None None
                       (Some "Voice") None None None)
              (lbl := "Voice") eq_refl Hnot) as [Hnum [Hscore Hres]].
  split; [apply Hnum; reflexivity |]. split; [exact Hscore | exact Hres].
Defined.

(** C10, counterexample.  'constructor' is not a recognized label, but it
    names a member every object inherits, so the lookup in
    [AVPU_NUMERIC_MAP] yields that member and [?? 0] keeps it: the label is
    not mapped to the number 0. *)
Lemma inherited_avpu_label_not_mapped_to_zero :
  ~ In "constructor" recognized_avpu /\
  avpuNumeric "constructor" = Obj /\
  avpuNumeric "constructor" <> Num (Fin 0).
Proof.
  split; [| split; [reflexivity | discriminate]].
  unfold recognized_avpu. simpl. intros H.
  repeat (destruct H as [H | H]; [discriminate H |]). exact H.
Qed.

(** ** Trend *)

Lemma calculateNEWS2_returns (v : VitalSign) : exists r, calculateNEWS2 v = Ok r.
Proof. rewrite calculateNEWS2_eq. eexists. reflexivity. Qed.

Lemma map_calculateNEWS2_returns (vitals : list VitalSign) :
  exists history,
    map_result calculateNEWS2 vitals = Ok history /\
    map Ok history = map calculateNEWS2 vitals.
Proof.
  induction vitals as [| v rest IH]; cbn [map_result map].
  - exists []. split; reflexivity.
  - destruct (calculateNEWS2_returns v) as [r Hr].
    destruct IH as [history [Hmap Heq]].
    exists (r :: history). rewrite Hr, Hmap. cbn [bind map].
    rewrite Heq. split; reflexivity.
Qed.

(** C7. With no observation, or with a single one, the trend is stable.
    With at least two, [useNewsScore] returns, and for the totals [a] of the
    newest and [b] of the one before it the trend is worsening iff [a > b],
    improving iff [a < b] and stable iff [a = b]. *)
Theorem useNewsScore_trend :
  (exists res, useNewsScore [] = Ok res /\ trend res = stable) /\
  (forall v, exists res, useNewsScore [v] = Ok res /\ trend res = stable) /\
  (forall v0 v1 rest, exists res r0 r1,
     useNewsScore (v0 :: v1 :: rest) = Ok res /\
     calculateNEWS2 v0 = Ok r0 /\
     calculateNEWS2 v1 = Ok r1 /\
     latestScore res = Some r0 /\
     (trend res = worsening <-> totalScore r0 > totalScore r1) /\
     (trend res = improving <-> totalScore r0 < totalScore r1) /\
     (trend res = stable <-> totalScore r0 = totalScore r1)).
Proof.
  split; [| split].
  - eexists. split; reflexivity.
  - intros v. destruct (calculateNEWS2_returns v) as [r Hr].
    eexists. unfold useNewsScore. cbn [map_result]. rewrite Hr. cbn [bind].
    split; reflexivity.
  - intros v0 v1 rest.
    destruct (calculateNEWS2_returns v0) as [r0 H0].
    destruct (calculateNEWS2_returns v1) as [r1 H1].
    destruct (map_calculateNEWS2_returns rest) as [history [Hmap _]].
    eexists. exists r0, r1. unfold useNewsScore. cbn [map_result].
    rewrite H0, H1, Hmap. cbn [bind].
    split; [reflexivity |]. split; [reflexivity |]. split; [reflexivity |].
    cbn [trend latestScore]. split; [reflexivity |].
    destruct (Z.gtb_spec (totalScore r0 - totalScore r1) 0) as [Hgt | Hle].
    + repeat split; intros H; try discriminate; try reflexivity; lia.
    + destruct (Z.ltb_spec (totalScore r0 - totalScore r1) 0) as [Hlt | Hge].
      * repeat split; intros H; try discriminate; try reflexivity; lia.
      * repeat split; intros H; try discriminate; try reflexivity; lia.
Qed.

(** ** Alerts on vital signs *)

Module AlertEngineProperties.
Import AlertEngine.

Lemma checkVitals_loop_cons (key : string) (t : VitalAlertThreshold)
    (rest : list (string * VitalAlertThreshold))
    (p : Patient) (v : VitalSign) (now : string) (acc : list Alert) (st : AlertStore) :
  checkVitals_loop ((key, t) :: rest) p v now acc st =
  checkVitals_loop rest p v now (acc ++ fst (entry_alerts key t p v now st))
                   (snd (entry_alerts key t p v now st)).
Proof.
  cbn [checkVitals_loop]. unfold entry_alerts.
  destruct (vital_field v key) as [value |]; cbn [fst snd];
    [| rewrite app_nil_r; reflexivity].
  destruct (in_critical_range t value); [reflexivity |].
  destruct (in_warning_range t value); [reflexivity |].
  cbn [fst snd]. rewrite app_nil_r. reflexivity.
Qed.

Lemma checkVitals_loop_acc (entries : list (string * VitalAlertThreshold))
    (p : Patient) (v : VitalSign) (now : string) (acc : list Alert) (st : AlertStore) :
  checkVitals_loop entries p v now acc st =
  (acc ++ fst (checkVitals_loop entries p v now [] st),
   snd (checkVitals_loop entries p v now [] st)).
Proof.
  revert acc st. induction entries as [| [key t] rest IH]; intros acc st.
  - cbn. rewrite app_nil_r. reflexivity.
  - rewrite !checkVitals_loop_cons.
    rewrite (IH (acc ++ _)), (IH ([] ++ _)). cbn [fst snd app].
    rewrite app_assoc. reflexivity.
Qed.

Lemma entry_alerts_about (key : string) (t : VitalAlertThreshold)
    (p : Patient) (v : VitalSign) (now : string) (st : AlertStore) (lbl : string) :
  map kind (alerts_about lbl (fst (entry_alerts key t p v now st))) =
  if String.eqb (label t) lbl then vital_outcome t (vital_field v key) else [].
Proof.
  unfold entry_alerts, vital_outcome, alerts_about.
  destruct (vital_field v key) as [value |].
  - destruct (in_critical_range t value).
    + cbn. destruct (String.eqb (label t) lbl); reflexivity.
    + destruct (in_warning_range t value).
      * cbn. destruct (String.eqb (label t) lbl); reflexivity.
      * cbn. destruct (String.eqb (label t) lbl); reflexivity.
  - cbn. destruct (String.eqb (label t) lbl); reflexivity.
Qed.

Lemma alerts_about_app (lbl : string) (a b : list Alert) :
  alerts_about lbl (a ++ b) = alerts_about lbl a ++ alerts_about lbl b.
Proof. apply filter_app. Qed.

Lemma checkVitals_loop_other (entries : list (string * VitalAlertThreshold))
    (p : Patient) (v : VitalSign) (now : string) (st : AlertStore) (lbl : string) :
  ~ In lbl (labels entries) ->
  alerts_about lbl (fst (checkVitals_loop entries p v now [] st)) = [].
Proof.
  revert st. induction entries as [| [key t] rest IH]; intros st Hnot.
  - reflexivity.
  - rewrite checkVitals_loop_cons, checkVitals_loop_acc. cbn [fst app].
    rewrite alerts_about_app, IH.
    + rewrite app_nil_r. apply map_eq_nil with (f := kind).
      rewrite entry_alerts_about.
      destruct (String.eqb_spec (label t) lbl) as [Heq | _]; [| reflexivity].
      exfalso. apply Hnot. left. exact Heq.
    + intros Hin. apply Hnot. right. exact Hin.
Qed.

(** The loop raises, for every entry, exactly the outcome of that entry, as
    long as the entries carry distinct labels. *)
Lemma checkVitals_loop_outcome (entries : list (string * VitalAlertThreshold))
    (p : Patient) (v : VitalSign) (now : string) (st : AlertStore) :
  NoDup (labels entries) ->
  Forall (fun e =>
            map kind (alerts_about (label (snd e))
                        (fst (checkVitals_loop entries p v now [] st))) =
            vital_outcome (snd e) (vital_field v (fst e)))
         entries.
Proof.
  revert st. induction entries as [| [key t] rest IH]; intros st Hnd.
  - constructor.
  - inversion Hnd as [| lbl ls Hnotin Hnd']. subst.
    rewrite checkVitals_loop_cons, checkVitals_loop_acc. cbn [fst snd app].
    constructor.
    + cbn [fst snd]. rewrite alerts_about_app, checkVitals_loop_other by exact Hnotin.
      rewrite app_nil_r, entry_alerts_about, String.eqb_refl. reflexivity.
    + specialize (IH (snd (entry_alerts key t p v now st)) Hnd').
      rewrite Forall_forall in IH |- *. intros [key' t'] Hin.
      specialize (IH _ Hin). cbn [fst snd] in IH |- *.
      rewrite alerts_about_app, map_app, entry_alerts_about, IH.
      destruct (String.eqb_spec (label t) (label t')) as [Heq | _]; [| reflexivity].
      exfalso. apply Hnotin. rewrite Heq.
      apply (in_map (fun e => label (snd e)) _ _ Hin).
Qed.

Lemma vital_outcome_at_most_one (t : VitalAlertThreshold) (field : option number) :
  (List.length (vital_outcome t field) <= 1)%nat.
Proof.
  unfold vital_outcome. destruct field as [value |]; [| simpl; lia].
  destruct (in_critical_range t value); [simpl; lia |].
  destruct (in_warning_range t value); simpl; lia.
Qed.

Lemma checkVitals_fst (p : Patient) (v : VitalSign) (now : string) (st : AlertStore) :
  fst (checkVitals p v now st) =
  fst (checkVitals_loop VITAL_ALERT_THRESHOLDS p v now [] st).
Proof.
  unfold checkVitals.
  destruct (checkVitals_loop VITAL_ALERT_THRESHOLDS p v now [] st). reflexivity.
Qed.

Lemma checkVitals_loop_types (entries : list (string * VitalAlertThreshold))
    (p : Patient) (v : VitalSign) (now : string) (st : AlertStore) :
  Forall (fun a => type a = vital_out_of_range /\
                   existsb (fun e => about_label (label (snd e)) a) entries = true)
         (fst (checkVitals_loop entries p v now [] st)).
Proof.
  revert st. induction entries as [| [key t] rest IH]; intros st.
  - constructor.
  - rewrite checkVitals_loop_cons, checkVitals_loop_acc. cbn [fst app].
    apply Forall_app. split.
    + unfold entry_alerts. destruct (vital_field v key) as [value |]; [| constructor].
      destruct (in_critical_range t value);
        [| destruct (in_warning_range t value); [| constructor]];
        (constructor; [| constructor]); (split; [reflexivity |]);
        cbn; rewrite String.eqb_refl; reflexivity.
    + eapply Forall_impl; [| apply IH].
      intros a [Hty Hex]. split; [exact Hty |].
      cbn [existsb]. rewrite Hex. apply orb_true_r.
Qed.

(** C5. One call of [checkVitals] raises, for each of the five monitored
    parameters (heart rate, respiratory rate, systolic BP, SpO2, temperature,
    in this order), nothing when the field is absent; a critical alert when
    the value is at or below [criticalLow] or at or above [criticalHigh];
    a warning alert when it is not critical and is at or below [warningLow]
    or at or above [warningHigh]; nothing otherwise.  So at most one
    vital_out_of_range alert is raised per parameter, never a warning and a
    critical together, and nothing else is raised.  For the heart rate the
    critical cutoffs are 40 and 130 and the warning cutoffs 50 and 110. *)
Theorem checkVitals_one_alert_per_parameter
    (patient : Patient) (vital : VitalSign) (now : string) (st : AlertStore) :
  let raised := fst (checkVitals patient vital now st) in
  map fst VITAL_ALERT_THRESHOLDS = ["hr"; "rr"; "bp_sys"; "spo2"; "temp"] /\
  Forall (fun e =>
            map kind (alerts_about (label (snd e)) raised) =
              vital_outcome (snd e) (vital_field vital (fst e)) /\
            (List.length (alerts_about (label (snd e)) raised) <= 1)%nat)
         VITAL_ALERT_THRESHOLDS /\
  Forall (fun a => type a = vital_out_of_range /\
                   existsb (fun e => about_label (label (snd e)) a)
                           VITAL_ALERT_THRESHOLDS = true)
         raised /\
  exists t, own_property VITAL_ALERT_THRESHOLDS "hr" = Some t /\
    forall q : Q,
      (in_critical_range t (Fin q) = true <-> (q <= 40 \/ 130 <= q)%Q) /\
      (in_warning_range t (Fin q) = true <-> (q <= 50 \/ 110 <= q)%Q).
Proof.
  cbv zeta. rewrite checkVitals_fst.
  split; [reflexivity |]. split; [| split].
  - assert (Hnd : NoDup (labels VITAL_ALERT_THRESHOLDS)).
    { unfold labels. cbn.
      repeat (constructor;
              [ cbn; intros H;
                repeat (destruct H as [H | H]; [discriminate H |]); exact H |]).
      constructor. }
    pose proof (@checkVitals_loop_outcome _ patient vital now st Hnd) as Hout.
    eapply Forall_impl; [| exact Hout].
    intros e He. split; [exact He |].
    rewrite <- (length_map kind), He. apply vital_outcome_at_most_one.
  - apply checkVitals_loop_types.
  - eexists. split; [reflexivity |]. intros q.
    unfold in_critical_range, in_warning_range, at_or_below, at_or_above.
    cbn [criticalLow criticalHigh warningLow warningHigh].
    rewrite !orb_true_iff, !num_le_Fin, !num_ge_Fin. split; reflexivity.
Qed.

(** ** Alerts on the score *)

Lemma filter_nonempty_existsb {A} (f : A -> bool) (l : list A) :
  (0 <? List.length (filter f l))%nat = existsb f l.
Proof.
  induction l as [| a rest IH]; [reflexivity |].
  cbn [filter existsb]. destruct (f a); [reflexivity | exact IH].
Qed.

(** C6. [checkNEWSScore] raises exactly one score-threshold alert, of
    severity info for Low-Medium, warning for Medium and critical for High,
    and none for Low; it raises one more alert, the red-parameter warning, if
    and only if some sub-score equals 3 and the risk is not High; it raises
    nothing else. *)
Theorem checkNEWSScore_alerts
    (score : NEWS2Result) (patientMrn now : string) (st : AlertStore) :
  let raised := fst (checkNEWSScore score patientMrn now st) in
  map kind (filter is_score_alert raised) =
    match clinicalRisk score with
    | Low => []
    | LowMedium => [(news_score_elevated, info)]
    | Medium => [(news_score_elevated, warning)]
    | High => [(news_score_critical, critical)]
    end /\
  map kind (filter is_red_alert raised) =
    (if has_red_subscore score && negb (is_High (clinicalRisk score))
     then [(news_score_elevated, warning)] else []) /\
  (List.length (filter is_red_alert raised) = 1%nat <->
     (exists s, In s (subScores score) /\ ss_score s = 3) /\
     clinicalRisk score <> High) /\
  raised = filter is_score_alert raised ++ filter is_red_alert raised.
Proof.
  cbv zeta. unfold checkNEWSScore, has_red_subscore.
  rewrite filter_nonempty_existsb.
  assert (Hred : existsb (fun s => ss_score s =? 3) (subScores score) = true <->
                 exists s, In s (subScores score) /\ ss_score s = 3).
  { rewrite existsb_exists. split; intros [s [Hin Hs]]; exists s; split; auto;
      apply Z.eqb_eq; exact Hs. }
  destruct (existsb (fun s => ss_score s =? 3) (subScores score)) eqn:Ex;
    destruct (clinicalRisk score) eqn:Er; cbn;
    (split; [reflexivity |]); (split; [reflexivity |]);
    (split; [| reflexivity]);
    (split;
     [ intros H;
       first [ discriminate H | split; [apply Hred; reflexivity | discriminate] ]
     | intros [H1 H2];
       first [ reflexivity
             | exfalso; apply H2; reflexivity
             | apply Hred in H1; discriminate H1 ] ]).
Qed.

(** ** Alert identifiers *)

Lemma of_uint_D0 (d : Decimal.uint) : Nat.of_uint (Decimal.D0 d) = Nat.of_uint d.
Proof. reflexivity. Qed.

Lemma uint_of_string_zeros (k : nat) (s : string) (d : Decimal.uint) :
  NilEmpty.uint_of_string s = Some d ->
  exists d', NilEmpty.uint_of_string (repeat_string k "0" ++ s) = Some d' /\
             Nat.of_uint d' = Nat.of_uint d.
Proof.
  intros Hs. induction k as [| k [d' [Hd' Heq]]].
  - exists d. split; [exact Hs | reflexivity].
  - exists (Decimal.D0 d'). cbn [repeat_string String.append NilEmpty.uint_of_string].
    rewrite Hd'. split; [reflexivity |]. rewrite of_uint_D0. exact Heq.
Qed.

(** The id printed for a counter value can be read back. *)
Lemma parseAlertId_formatAlertId (n : nat) : parseAlertId (formatAlertId n) = Some n.
Proof.
  unfold formatAlertId, padStart, String_of.
  destruct (@uint_of_string_zeros
              (4 - String.length (NilEmpty.string_of_uint (Nat.to_uint n))) _ _
              (NilEmpty.usu (Nat.to_uint n))) as [d' [Hd' Heq]].
  cbn [String.append parseAlertId]. rewrite Hd'. cbn [option_map].
  rewrite Heq, DecimalNat.Unsigned.of_to. reflexivity.
Qed.

Lemma formatAlertId_inj (m n : nat) : formatAlertId m = formatAlertId n -> m = n.
Proof.
  intros H. apply (f_equal parseAlertId) in H.
  rewrite !parseAlertId_formatAlertId in H. congruence.
Qed.

Lemma NoDup_formatAlertId (start len : nat) :
  NoDup (map formatAlertId (seq start len)).
Proof.
  apply Injective_map_NoDup.
  - intros m n. apply formatAlertId_inj.
  - apply seq_NoDup.
Qed.


Lemma entry_alerts_issues (key : string) (t : VitalAlertThreshold)
    (p : Patient) (v : VitalSign) (now : string) (st : AlertStore) :
  let r := entry_alerts key t p v now st in
  alerts (snd r) = alerts st /\
  alertIdCounter (snd r) = (alertIdCounter st + List.length (fst r))%nat /\
  map id (fst r) = map formatAlertId (seq (S (alertIdCounter st)) (List.length (fst r))).
Proof.
  cbv zeta. unfold entry_alerts, generateAlertId.
  destruct (vital_field v key) as [value |];
    [ destruct (in_critical_range t value);
      [| destruct (in_warning_range t value)] |];
    cbn; repeat split; lia.
Qed.

Lemma checkVitals_loop_issues (entries : list (string * VitalAlertThreshold))
    (p : Patient) (v : VitalSign) (now : string) (st : AlertStore) :
  let r := checkVitals_loop entries p v now [] st in
  alerts (snd r) = alerts st /\
  alertIdCounter (snd r) = (alertIdCounter st + List.length (fst r))%nat /\
  map id (fst r) = map formatAlertId (seq (S (alertIdCounter st)) (List.length (fst r))).
Proof.
  cbv zeta. revert st. induction entries as [| [key t] rest IH]; intros st.
  - cbn. repeat split. lia.
  - rewrite checkVitals_loop_cons, checkVitals_loop_acc. cbn [fst snd app].
    destruct (entry_alerts_issues key t p v now st) as [Ha [Hc Hi]].
    destruct (IH (snd (entry_alerts key t p v now st))) as [Ha' [Hc' Hi']].
    rewrite Ha', Hc', Ha, Hc, length_app, map_app, Hi, Hi', Hc.
    repeat split; [lia |].
    rewrite seq_app, map_app. reflexivity.
Qed.

Lemma checkVitals_appends (p : Patient) (v : VitalSign) (now : string) (st : AlertStore) :
  appends st (checkVitals p v now st).
Proof.
  unfold appends, checkVitals.
  pose proof (checkVitals_loop_issues VITAL_ALERT_THRESHOLDS p v now st) as H.
  cbv zeta in H.
  destruct (checkVitals_loop VITAL_ALERT_THRESHOLDS p v now [] st) as [new st'].
  cbn [fst snd alerts alertIdCounter] in *.
  destruct H as [Ha [Hc Hi]]. rewrite Ha. repeat split; assumption.
Qed.

Lemma checkNEWSScore_appends (score : NEWS2Result) (m now : string) (st : AlertStore) :
  appends st (checkNEWSScore score m now st).
Proof.
  unfold appends, checkNEWSScore, generateAlertId.
  destruct (riskMap (clinicalRisk score)) as [[sev ty] |];
    destruct (Nat.ltb 0 (List.length (filter (fun s => ss_score s =? 3) (subScores score)))
              && negb (is_High (clinicalRisk score)));
    cbn; repeat split; lia.
Qed.

Lemma appends_invariant (st : AlertStore) (r : list Alert * AlertStore) :
  appends st r ->
  map id (alerts st) = map formatAlertId (seq 1 (alertIdCounter st)) ->
  map id (alerts (snd r)) = map formatAlertId (seq 1 (alertIdCounter (snd r))).
Proof.
  intros [Ha [Hc Hi]] Hinv.
  rewrite Ha, Hc, map_app, Hinv, Hi, seq_app, map_app. reflexivity.
Qed.

Lemma step_invariant (st : AlertStore) (c : call) :
  map id (alerts st) = map formatAlertId (seq 1 (alertIdCounter st)) ->
  map id (alerts (step st c)) = map formatAlertId (seq 1 (alertIdCounter (step st c))).
Proof.
  intros Hinv. destruct c as [p v now | r m now | i |]; cbn [step].
  - apply (appends_invariant (checkVitals_appends p v now st) Hinv).
  - apply (appends_invariant (checkNEWSScore_appends r m now st) Hinv).
  - unfold acknowledgeAlert. cbn [alerts alertIdCounter].
    rewrite map_map, <- Hinv. apply map_ext. intros a.
    destruct (String.eqb (id a) i); reflexivity.
  - reflexivity.
Qed.

Lemma fold_step_invariant (calls : list call) (st : AlertStore) :
  map id (alerts st) = map formatAlertId (seq 1 (alertIdCounter st)) ->
  map id (alerts (fold_left step calls st)) =
  map formatAlertId (seq 1 (alertIdCounter (fold_left step calls st))).
Proof.
  revert st. induction calls as [| c rest IH]; intros st Hinv; cbn [fold_left].
  - exact Hinv.
  - apply IH. apply step_invariant. exact Hinv.
Qed.

(** C8. In every session the ids of the ledger are ALT-0001, ALT-0002, ...
    up to the counter, in order, so they are pairwise distinct; every
    append ([checkVitals], [checkNEWSScore]) adds the returned alerts to the
    ledger with the next counter values as ids; [clearAlerts] empties the
    ledger and resets the counter, after which the session goes on as a
    fresh one and the first id issued is ALT-0001 again. *)
Theorem alert_ids_sequential (calls : list call) :
  let st := run calls in
  map id (alerts st) = map formatAlertId (seq 1 (alertIdCounter st)) /\
  map parseAlertId (map id (alerts st)) = map Some (seq 1 (alertIdCounter st)) /\
  NoDup (map id (alerts st)) /\
  (forall p v now, appends st (checkVitals p v now st)) /\
  (forall r m now, appends st (checkNEWSScore r m now st)) /\
  clearAlerts st = initialStore /\
  (forall calls', run (calls ++ ClearAlerts :: calls') = run calls') /\
  fst (generateAlertId (clearAlerts st)) = "ALT-0001" /\
  map formatAlertId [1; 2; 42; 1234]%nat = ["ALT-0001"; "ALT-0002"; "ALT-0042"; "ALT-1234"].
Proof.
  cbv zeta.
  assert (Hinv : map id (alerts (run calls)) =
                 map formatAlertId (seq 1 (alertIdCounter (run calls)))).
  { unfold run. apply fold_step_invariant. reflexivity. }
  split; [exact Hinv |]. split; [| split].
  - rewrite Hinv, map_map. apply map_ext. intros n. apply parseAlertId_formatAlertId.
  - rewrite Hinv. apply NoDup_formatAlertId.
  - split; [intros; apply checkVitals_appends |].
    split; [intros; apply checkNEWSScore_appends |].
    split; [reflexivity |].
    split; [| split; reflexivity].
    intros calls'. unfold run. rewrite fold_left_app. reflexivity.
Qed.

End AlertEngineProperties.

(* ================================================================== *)
(** * Further properties of the calculator                             *)
(* ================================================================== *)

Lemma own_property_In {A} (o : list (string * A)) (key : string) (a : A) :
  own_property o key = Some a -> In (key, a) o.
Proof.
  induction o as [| [k x] rest IH]; cbn [own_property]; [discriminate |].
  destruct (String.eqb_spec k key) as [-> | _].
  - intros [= ->]. left. reflexivity.
  - intros H. right. apply IH. exact H.
Qed.

Lemma band_score_range (bs : list ScoreThresholdBand) (value : number) :
  forallb (fun b => (0 <=? score b) && (score b <=? 3)) bs = true ->
  0 <= band_score bs value <= 3.
Proof.
  intros Hall. unfold band_score.
  destruct (find (in_band value) bs) as [b |] eqn:Hfind; [| lia].
  apply find_some in Hfind. destruct Hfind as [Hin _].
  rewrite forallb_forall in Hall. specialize (Hall b Hin).
  apply andb_true_iff in Hall. destruct Hall as [H0 H3].
  apply Z.leb_le in H0. apply Z.leb_le in H3. lia.
Qed.

Lemma table_scores_in_range :
  forallb (fun e => forallb (fun b => (0 <=? score b) && (score b <=? 3)) (bands (snd e)))
          NEWS2_THRESHOLDS = true.
Proof. reflexivity. Qed.

Lemma bands_of_range (key : string) (value : number) :
  0 <= band_score (bands_of key) value <= 3.
Proof.
  apply band_score_range. unfold bands_of.
  destruct (own_property NEWS2_THRESHOLDS key) as [th |] eqn:E; [| reflexivity].
  apply own_property_In in E.
  pose proof table_scores_in_range as Hall. rewrite forallb_forall in Hall.
  apply (Hall (key, th) E).
Qed.

(** X1. For every key and every value, [calculateSubScore] either returns a
    score between 0 and 3 or throws, and it throws exactly for the keys that
    name a member inherited from [Object.prototype]. *)
Theorem calculateSubScore_range (key : string) (value : number) :
  match calculateSubScore key value with
  | Ok s => 0 <= s <= 3 /\ is_inherited key = false
  | Throw _ => is_inherited key = true /\ own_property NEWS2_THRESHOLDS key = None
  end.
Proof.
  destruct (is_inherited key) eqn:Hinh.
  - rewrite (calculateSubScore_inherited key value Hinh).
    split; [reflexivity |].
    pose proof (calculateSubScore_inherited key value Hinh) as Hthrow.
    destruct (own_property NEWS2_THRESHOLDS key) as [th |] eqn:E; [| reflexivity].
    rewrite (calculateSubScore_own key value E) in Hthrow. discriminate.
  - destruct (own_property NEWS2_THRESHOLDS key) as [th |] eqn:E.
    + rewrite (calculateSubScore_own key value E). split; [| reflexivity].
      pose proof (bands_of_range key value) as H. unfold bands_of in H.
      rewrite E in H. exact H.
    + rewrite (calculateSubScore_unknown key value E Hinh). split; [lia | reflexivity].
Qed.

Lemma total_of_app (a b : list NEWS2SubScore) :
  total_of (a ++ b) = total_of a + total_of b.
Proof.
  unfold total_of. rewrite fold_left_app.
  generalize (fold_left (fun sum s => sum + ss_score s) a 0). 
  induction b as [| s rest IH]; intros acc; cbn [fold_left].
  - lia.
  - rewrite IH, (IH (0 + ss_score s)). lia.
Qed.

Lemma total_of_numeric_sub (key name : string) (field : option number) :
  0 <= total_of (numeric_sub key name field) <= 3.
Proof.
  destruct field as [value |]; unfold numeric_sub, total_of; cbn [fold_left ss_score].
  - pose proof (bands_of_range key value). lia.
  - lia.
Qed.

Lemma numeric_sub_scores (key name : string) (field : option number) :
  Forall (fun s => 0 <= ss_score s <= 3) (numeric_sub key name field).
Proof.
  destruct field as [value |]; unfold numeric_sub; constructor; [| constructor].
  cbn [ss_score]. apply bands_of_range.
Qed.

Lemma numeric_sub_length (key name : string) (field : option number) :
  (List.length (numeric_sub key name field) <= 1)%nat.
Proof. destruct field; simpl; lia. Qed.

Lemma breakdown_bounds (v : VitalSign) :
  Forall (fun s => 0 <= ss_score s <= 3) (breakdown v) /\
  (1 <= List.length (breakdown v) <= 7)%nat /\
  0 <= total_of (breakdown v) <= 20.
Proof.
  unfold breakdown.
  set (a1 := numeric_sub "respiratoryRate" "Respiratory Rate" (rr v)).
  set (a2 := numeric_sub "spo2Scale1" "SpO2" (spo2 v)).
  set (a4 := numeric_sub "temperature" "Temperature" (temp v)).
  set (a5 := numeric_sub "systolicBP" "Systolic BP" (bp_sys v)).
  set (a6 := numeric_sub "heartRate" "Heart Rate" (hr v)).
  set (a7 := match avpu v with
             | Some lbl => [mkSub "Consciousness" (StrValue lbl)
                              (band_score (bands_of "consciousness")
                                          (to_number (avpuNumeric lbl)))]
             | None => []
             end).
  assert (H7 : Forall (fun s => 0 <= ss_score s <= 3) a7 /\
               (List.length a7 <= 1)%nat /\ 0 <= total_of a7 <= 3).
  { subst a7. destruct (avpu v) as [lbl |].
    - pose proof (bands_of_range "consciousness" (to_number (avpuNumeric lbl))) as Hb.
      split; [constructor; [exact Hb | constructor] |].
      split; [simpl; lia |]. unfold total_of. cbn [fold_left ss_score]. lia.
    - split; [constructor |]. split; [simpl; lia |]. unfold total_of. simpl. lia. }
  destruct H7 as [H7s [H7l H7t]].
  pose proof (numeric_sub_scores "respiratoryRate" "Respiratory Rate" (rr v)) as S1.
  pose proof (numeric_sub_scores "spo2Scale1" "SpO2" (spo2 v)) as S2.
  pose proof (numeric_sub_scores "temperature" "Temperature" (temp v)) as S4.
  pose proof (numeric_sub_scores "systolicBP" "Systolic BP" (bp_sys v)) as S5.
  pose proof (numeric_sub_scores "heartRate" "Heart Rate" (hr v)) as S6.
  pose proof (numeric_sub_length "respiratoryRate" "Respiratory Rate" (rr v)) as L1.
  pose proof (numeric_sub_length "spo2Scale1" "SpO2" (spo2 v)) as L2.
  pose proof (numeric_sub_length "temperature" "Temperature" (temp v)) as L4.
  pose proof (numeric_sub_length "systolicBP" "Systolic BP" (bp_sys v)) as L5.
  pose proof (numeric_sub_length "heartRate" "Heart Rate" (hr v)) as L6.
  pose proof (total_of_numeric_sub "respiratoryRate" "Respiratory Rate" (rr v)) as T1.
  pose proof (total_of_numeric_sub "spo2Scale1" "SpO2" (spo2 v)) as T2.
  pose proof (total_of_numeric_sub "temperature" "Temperature" (temp v)) as T4.
  pose proof (total_of_numeric_sub "systolicBP" "Systolic BP" (bp_sys v)) as T5.
  pose proof (total_of_numeric_sub "heartRate" "Heart Rate" (hr v)) as T6.
  fold a1 in S1, L1, T1. fold a2 in S2, L2, T2. fold a4 in S4, L4, T4.
  fold a5 in S5, L5, T5. fold a6 in S6, L6, T6.
  split; [| split].
  - repeat (apply Forall_app; split); try assumption.
    constructor; [| constructor]. cbn [ss_score].
    destruct (truthy (supplementalO2 v)); lia.
  - rewrite !length_app. cbn [List.length]. lia.
  - rewrite !total_of_app.
    assert (H3 : total_of [mkSub "Supplemental O2"
                   (StrValue (if truthy (supplementalO2 v) then "Yes" else "No"))
                   (if truthy (supplementalO2 v) then 2 else 0)] <= 2 /\
                 0 <= total_of [mkSub "Supplemental O2"
                   (StrValue (if truthy (supplementalO2 v) then "Yes" else "No"))
                   (if truthy (supplementalO2 v) then 2 else 0)]).
    { unfold total_of. cbn [fold_left ss_score].
      destruct (truthy (supplementalO2 v)); lia. }
    lia.
Qed.

(** X2. For every observation [calculateNEWS2] returns a result whose
    sub-scores all lie between 0 and 3, that holds between one and seven of
    them, and whose total lies between 0 and 20. *)
Theorem calculateNEWS2_bounds (v : VitalSign) :
  exists r,
    calculateNEWS2 v = Ok r /\
    Forall (fun s => 0 <= ss_score s <= 3) (subScores r) /\
    (1 <= List.length (subScores r) <= 7)%nat /\
    0 <= totalScore r <= 20.
Proof.
  rewrite calculateNEWS2_eq. eexists. split; [reflexivity |].
  cbn [subScores totalScore]. apply breakdown_bounds.
Qed.

(** X3. The breakdown lists the sub-scores in the fixed order respiratory
    rate, SpO2, supplemental O2, temperature, systolic BP, heart rate,
    consciousness, keeping the parameters that are scored; no parameter name
    occurs twice. *)
Theorem subScores_in_scoring_order (v : VitalSign) :
  exists r,
    calculateNEWS2 v = Ok r /\
    map ss_parameter (subScores r) =
      filter (fun name => Nat.ltb 0 (expected_count v name)) scoring_order /\
    NoDup (map ss_parameter (subScores r)).
Proof.
  rewrite calculateNEWS2_eq. eexists. split; [reflexivity |].
  cbn [subScores].
  assert (Hnames : map ss_parameter (breakdown v) =
                   filter (fun name => Nat.ltb 0 (expected_count v name)) scoring_order).
  { unfold breakdown, numeric_sub, expected_count, field_present, scoring_order.
    destruct (rr v), (spo2 v), (supplementalO2 v), (temp v), (bp_sys v), (hr v),
      (avpu v); reflexivity. }
  split; [exact Hnames |].
  rewrite Hnames. apply NoDup_filter. unfold scoring_order.
  repeat (constructor;
          [ cbn; intros H;
            repeat (destruct H as [H | H]; [discriminate H |]); exact H |]).
  constructor.
Qed.

(** X4. The result depends only on the six scored fields and on whether the
    oxygen flag is true: the time stamp, the diastolic pressure, the pain
    score and a stored [newsScore] are never read, and an absent oxygen
    flag gives the same result as a false one. *)
Theorem calculateNEWS2_reads_scored_part (v : VitalSign) :
  calculateNEWS2 v = calculateNEWS2 (scored_part v).
Proof.
  rewrite !calculateNEWS2_eq. unfold breakdown, scored_part.
  cbn [rr spo2 supplementalO2 temp bp_sys hr avpu].
  destruct (supplementalO2 v) as [[|] |]; reflexivity.
Qed.

Lemma num_ge_of_Z (a b : Z) : num_ge (num_of_Z a) (Fin (inject_Z b)) = (b <=? a).
Proof.
  unfold num_ge, num_of_Z, num_le, Qle_bool. cbn [inject_Z Qnum Qden].
  rewrite !Z.mul_1_r. reflexivity.
Qed.

(** The escalation level as a measure of severity. *)
Lemma getEscalationLevel_range (risk : ClinicalRisk) : 0 <= getEscalationLevel risk <= 3.
Proof. destruct risk; simpl; lia. Qed.

(** X5. The classification never decreases when the total grows or when the
    red flag is raised, and the red flag changes the outcome only from Low
    to Low-Medium. *)
Theorem getClinicalRisk_monotone (t1 t2 : Q) (r1 r2 : bool) :
  (t1 <= t2)%Q ->
  Bool.le r1 r2 ->
  getEscalationLevel (getClinicalRisk (Fin t1) r1) <=
    getEscalationLevel (getClinicalRisk (Fin t2) r2) /\
  (getClinicalRisk (Fin t1) true <> getClinicalRisk (Fin t1) false ->
   getClinicalRisk (Fin t1) false = Low /\ getClinicalRisk (Fin t1) true = LowMedium).
Proof.
  intros Ht Hr.
  unfold getClinicalRisk, CLINICAL_RISK_THRESHOLDS.high, CLINICAL_RISK_THRESHOLDS.medium.
  destruct (num_ge (Fin t1) (Fin 7)) eqn:A7;
    [apply num_ge_Fin in A7 | apply num_ge_Fin_false in A7];
  (destruct (num_ge (Fin t1) (Fin 5)) eqn:A5;
    [apply num_ge_Fin in A5 | apply num_ge_Fin_false in A5]);
  (destruct (num_ge (Fin t2) (Fin 7)) eqn:B7;
    [apply num_ge_Fin in B7 | apply num_ge_Fin_false in B7]);
  (destruct (num_ge (Fin t2) (Fin 5)) eqn:B5;
    [apply num_ge_Fin in B5 | apply num_ge_Fin_false in B5]);
  try (exfalso; lra);
  (split; [ destruct r1, r2; cbn in *; try lia; try discriminate Hr; contradiction
          | intros Hne; first [ congruence | split; reflexivity ] ]).
Qed.

Lemma getClinicalRisk_monotone_witness :
  getEscalationLevel (getClinicalRisk (Fin 4) false) <=
    getEscalationLevel (getClinicalRisk (Fin 6) true) /\
  (getClinicalRisk (Fin 4) true <> getClinicalRisk (Fin 4) false ->
   getClinicalRisk (Fin 4) false = Low /\ getClinicalRisk (Fin 4) true = LowMedium).
Proof.
  apply (@getClinicalRisk_monotone 4 6 false true).
  - unfold Qle. simpl. lia.
  - simpl. exact I.
Defined.

Lemma total_of_bounds_member (l : list NEWS2SubScore) (s : NEWS2SubScore) :
  Forall (fun x => 0 <= ss_score x <= 3) l -> In s l -> ss_score s <= total_of l.
Proof.
  induction l as [| x rest IH]; intros Hall Hin; [contradiction |].
  inversion Hall as [| y ys Hx Hrest]. subst.
  change (x :: rest) with ([x] ++ rest). rewrite total_of_app.
  assert (Hrest0 : 0 <= total_of rest).
  { clear IH Hin Hall. induction rest as [| z zs IHz]; [unfold total_of; simpl; lia |].
    inversion Hrest as [| y ys Hz Hzs]. subst.
    change (z :: zs) with ([z] ++ zs). rewrite total_of_app.
    specialize (IHz Hzs). unfold total_of at 1. cbn [fold_left]. lia. }
  unfold total_of at 1. cbn [fold_left].
  destruct Hin as [-> | Hin]; [lia |].
  specialize (IH Hrest Hin). lia.
Qed.

(** X6. In every result of [calculateNEWS2] the risk is read off the total
    and the sub-scores: High iff the total is at least 7, Medium iff it is 5
    or 6, Low-Medium iff it is 3 or 4 and some sub-score equals 3, Low iff it
    is at most 4 and no sub-score equals 3; the escalation level is the
    level of that risk. *)
Theorem calculateNEWS2_risk_by_total (v : VitalSign) :
  exists r,
    calculateNEWS2 v = Ok r /\
    (clinicalRisk r = High <-> 7 <= totalScore r) /\
    (clinicalRisk r = Medium <-> 5 <= totalScore r <= 6) /\
    (clinicalRisk r = LowMedium <->
       3 <= totalScore r <= 4 /\ exists s, In s (subScores r) /\ ss_score s = 3) /\
    (clinicalRisk r = Low <->
       0 <= totalScore r <= 4 /\ ~ exists s, In s (subScores r) /\ ss_score s = 3) /\
    escalationLevel r = getEscalationLevel (clinicalRisk r).
Proof.
  rewrite calculateNEWS2_eq. eexists. split; [reflexivity |].
  cbn [subScores totalScore clinicalRisk escalationLevel].
  fold (total_of (breakdown v)).
  destruct (breakdown_bounds v) as [Hall [_ Htot]].
  assert (Hred : existsb (fun s => ss_score s =? 3) (breakdown v) = true <->
                 exists s, In s (breakdown v) /\ ss_score s = 3).
  { rewrite existsb_exists. split; intros [s [Hin Hs]]; exists s; split; auto;
      apply Z.eqb_eq; exact Hs. }
  assert (Hge : (exists s, In s (breakdown v) /\ ss_score s = 3) ->
                3 <= total_of (breakdown v)).
  { intros [s [Hin Hs]]. rewrite <- Hs. apply total_of_bounds_member; assumption. }
  unfold getClinicalRisk, CLINICAL_RISK_THRESHOLDS.high, CLINICAL_RISK_THRESHOLDS.medium.
  change (Fin 7) with (Fin (inject_Z 7)). change (Fin 5) with (Fin (inject_Z 5)).
  rewrite !num_ge_of_Z.
  destruct (Z.leb_spec 7 (total_of (breakdown v))) as [H7 | H7];
    [| destruct (Z.leb_spec 5 (total_of (breakdown v))) as [H5 | H5];
       [| destruct (existsb (fun s => ss_score s =? 3) (breakdown v)) eqn:Ex ] ];
    (split; [| split; [| split; [| split; [| reflexivity]]]]);
    (split; [intros H | intros H]);
    try discriminate H; try reflexivity; try lia;
    try match type of H with
        | _ /\ _ => destruct H as [H1 H2]; try lia
        end.
  - split; [| apply Hred; reflexivity].
    assert (3 <= total_of (breakdown v)) by (apply Hge, Hred; reflexivity). lia.
  - exfalso. apply H2. apply Hred. reflexivity.
  - apply Hred in H2. discriminate H2.
  - split; [lia |]. intros Hex. apply Hred in Hex. discriminate Hex.
Qed.

(** X7. Giving supplemental oxygen adds exactly 2 to the total and changes
    nothing but the 'Supplemental O2' sub-score: the SpO2 sub-score is the
    same on oxygen and on air. *)
Theorem supplemental_oxygen_adds_two (v : VitalSign) :
  exists on off,
    calculateNEWS2 (with_oxygen true v) = Ok on /\
    calculateNEWS2 (with_oxygen false v) = Ok off /\
    totalScore on = totalScore off + 2 /\
    filter (fun s => negb (String.eqb (ss_parameter s) "Supplemental O2")) (subScores on) =
    filter (fun s => negb (String.eqb (ss_parameter s) "Supplemental O2")) (subScores off).
Proof.
  rewrite !calculateNEWS2_eq. eexists. eexists.
  split; [reflexivity |]. split; [reflexivity |].
  cbn [subScores totalScore]. unfold breakdown, with_oxygen.
  cbn [rr spo2 supplementalO2 temp bp_sys hr avpu truthy].
  split.
  - fold (total_of
       (numeric_sub "respiratoryRate" "Respiratory Rate" (rr v) ++
        numeric_sub "spo2Scale1" "SpO2" (spo2 v) ++
        [mkSub "Supplemental O2" (StrValue "Yes") 2] ++
        numeric_sub "temperature" "Temperature" (temp v) ++
        numeric_sub "systolicBP" "Systolic BP" (bp_sys v) ++
        numeric_sub "heartRate" "Heart Rate" (hr v) ++
        match avpu v with
        | Some lbl => [mkSub "Consciousness" (StrValue lbl)
                         (band_score (bands_of "consciousness")
                                     (to_number (avpuNumeric lbl)))]
        | None => []
        end)).
    fold (total_of
       (numeric_sub "respiratoryRate" "Respiratory Rate" (rr v) ++
        numeric_sub "spo2Scale1" "SpO2" (spo2 v) ++
        [mkSub "Supplemental O2" (StrValue "No") 0] ++
        numeric_sub "temperature" "Temperature" (temp v) ++
        numeric_sub "systolicBP" "Systolic BP" (bp_sys v) ++
        numeric_sub "heartRate" "Heart Rate" (hr v) ++
        match avpu v with
        | Some lbl => [mkSub "Consciousness" (StrValue lbl)
                         (band_score (bands_of "consciousness")
                                     (to_number (avpuNumeric lbl)))]
        | None => []
        end)).
    rewrite !total_of_app. unfold total_of at 3 10. cbn [fold_left ss_score]. lia.
  - rewrite !filter_app. reflexivity.
Qed.

(* ================================================================== *)
(** * The calculator and the alert engine side by side                 *)
(* ================================================================== *)

Module Agreement.
Import AlertEngine.

Lemma Qle_bool_false (x y : Q) : Qle_bool x y = false -> (y < x)%Q.
Proof.
  intros H. apply Qnot_le_lt. intros Hle. apply Qle_bool_iff in Hle. congruence.
Qed.

(** Case analysis on the next comparison of rationals in the goal, dropping
    the cases the earlier comparisons exclude. *)
Ltac split_comparison :=
  match goal with
  | |- context [Qle_bool ?a ?b] =>
      let E := fresh "E" in
      destruct (Qle_bool a b) eqn:E;
      [ apply Qle_bool_iff in E | apply Qle_bool_false in E ];
      cbn [andb orb negb]; try (exfalso; lra)
  end.

Lemma red_band_is_critical_range :
  Forall (fun kk =>
            match own_property VITAL_ALERT_THRESHOLDS (snd kk) with
            | Some t =>
                forall value : number,
                  (band_score (bands_of (fst kk)) value = 3 ->
                   in_critical_range t value = true) /\
                  (in_warning_range t value = false ->
                   band_score (bands_of (fst kk)) value <= 1)
            | None => False
            end)
         shared_vitals.
Proof.
  unfold shared_vitals.
  repeat (apply Forall_cons;
    [ cbn [fst snd own_property VITAL_ALERT_THRESHOLDS String.eqb Ascii.eqb Bool.eqb];
      intros value;
      unfold in_critical_range, in_warning_range, at_or_below, at_or_above, band_score;
      cbn [criticalLow criticalHigh warningLow warningHigh];
      destruct value as [| | | q];
      [ split; intros H; vm_compute in H |- *;
        first [discriminate H | reflexivity | discriminate]
      | split; intros H; vm_compute in H |- *;
        first [discriminate H | reflexivity | discriminate]
      | split; intros H; vm_compute in H |- *;
        first [discriminate H | reflexivity | discriminate]
      | cbn; cbv [in_band num_ge num_le min max]; cbn [andb orb];
        split; intros H; revert H;
        repeat split_comparison; cbn; intros H;
        first [ reflexivity | discriminate H | lia ] ]
    | ]).
  apply Forall_nil.
Qed.

End Agreement.

(* ================================================================== *)
(** * The views that consume the calculator                            *)
(* ================================================================== *)

Lemma getSubScore_breakdown (v : VitalSign) (name : string) (t : Z)
    (risk : ClinicalRisk) (level : EscalationLevel) :
  VitalSignsFlowsheet.getSubScore (mkResult t (breakdown v) risk level) name =
  cell_score v name.
Proof.
  unfold VitalSignsFlowsheet.getSubScore, breakdown, numeric_sub, cell_score, field_score.
  cbn [subScores].
  destruct (rr v), (spo2 v), (temp v), (bp_sys v), (hr v), (avpu v);
    cbn [app find ss_parameter ss_score];
    repeat match goal with
           | |- context [String.eqb ?lit name] =>
               destruct (String.eqb_spec lit name) as [<- | _]; [reflexivity |]
           end;
    reflexivity.
Qed.

Lemma cell_score_range (v : VitalSign) (name : string) : 0 <= cell_score v name <= 3.
Proof.
  unfold cell_score, field_score.
  repeat match goal with
         | |- context [if String.eqb ?lit name then _ else _] =>
             destruct (String.eqb lit name)
         end;
    repeat match goal with
           | |- context [match ?f with Some _ => _ | None => _ end] => destruct f
           end;
    try apply bands_of_range; try lia.
  destruct (truthy (supplementalO2 v)); lia.
Qed.

(** X8. The score behind a flowsheet cell: for every observation and every
    row name, [getSubScore] applied to the result of [calculateNEWS2] is the
    band score of the row's field, 0 when that field is absent or the name
    is not a scored parameter; it always lies between 0 and 3, so the colour
    variable [--news-score-N] of the cell exists. *)
Theorem flowsheet_cell_score (v : VitalSign) (name : string) :
  exists r,
    calculateNEWS2 v = Ok r /\
    VitalSignsFlowsheet.getSubScore r name = cell_score v name /\
    0 <= VitalSignsFlowsheet.getSubScore r name <= 3 /\
    (field_present v name = false -> String.eqb "Supplemental O2" name = false ->
     VitalSignsFlowsheet.getSubScore r name = 0).
Proof.
  rewrite calculateNEWS2_eq. eexists. split; [reflexivity |].
  rewrite getSubScore_breakdown.
  split; [reflexivity |]. split; [apply cell_score_range |].
  unfold field_present, cell_score, field_score, present.
  intros Habs Ho2. rewrite Ho2 in *.
  repeat match goal with
         | |- context [if String.eqb ?lit name then _ else _] =>
             destruct (String.eqb lit name)
         end;
    try reflexivity;
    repeat match goal with
           | |- context [match ?f with Some _ => _ | None => _ end] =>
               destruct f; try discriminate Habs
           end;
    reflexivity.
Qed.

Module AlertAgreement.
Import AlertEngine AlertEngineProperties.

Lemma checkVitals_outcome (p : Patient) (v : VitalSign) (now : string) (st : AlertStore) :
  Forall (fun e =>
            map kind (alerts_about (label (snd e)) (fst (checkVitals p v now st))) =
            vital_outcome (snd e) (vital_field v (fst e)))
         VITAL_ALERT_THRESHOLDS.
Proof.
  rewrite checkVitals_fst. apply checkVitals_loop_outcome.
  unfold labels. cbn.
  repeat (constructor;
          [ cbn; intros H;
            repeat (destruct H as [H | H]; [discriminate H |]); exact H |]).
  constructor.
Qed.

Lemma outcome_agrees (key : string) (t : VitalAlertThreshold) (field : option number)
    (raised : list Alert) :
  (forall value : number,
     (band_score (bands_of key) value = 3 -> in_critical_range t value = true) /\
     (in_warning_range t value = false -> band_score (bands_of key) value <= 1)) ->
  map kind (alerts_about (label t) raised) = vital_outcome t field ->
  (field_score key field = 3 ->
   map kind (alerts_about (label t) raised) = [(vital_out_of_range, critical)]) /\
  (alerts_about (label t) raised = [] -> field_score key field <= 1).
Proof.
  intros Hband Hout. rewrite Hout. unfold field_score, vital_outcome.
  destruct field as [value |].
  - destruct (Hband value) as [Hred Hquiet]. split.
    + intros H3. rewrite (Hred H3). reflexivity.
    + intros Hnil. rewrite Hnil in Hout. cbn [map] in Hout.
      unfold vital_outcome in Hout.
      destruct (in_critical_range t value); [discriminate Hout |].
      destruct (in_warning_range t value); [discriminate Hout |].
      apply Hquiet. reflexivity.
  - split; [intros H; discriminate H | intros _; lia].
Qed.

(** X9. The two modules agree on the five vital signs they share.  For the
    same observation, whenever [calculateNEWS2] gives heart rate,
    respiratory rate, systolic BP, SpO2 or temperature the sub-score 3,
    [checkVitals] raises a critical alert for that parameter; and whenever
    [checkVitals] raises no alert for one of them, its sub-score is at most
    1. *)
Theorem red_subscore_raises_critical_alert
    (p : Patient) (v : VitalSign) (now : string) (st : AlertStore) :
  exists r,
    calculateNEWS2 v = Ok r /\
    Forall (fun e =>
              let name := label (snd e) in
              let raised := fst (checkVitals p v now st) in
              (VitalSignsFlowsheet.getSubScore r name = 3 ->
               map kind (alerts_about name raised) = [(vital_out_of_range, critical)]) /\
              (alerts_about name raised = [] ->
               VitalSignsFlowsheet.getSubScore r name <= 1))
           VITAL_ALERT_THRESHOLDS.
Proof.
  rewrite calculateNEWS2_eq. eexists. split; [reflexivity |].
  pose proof (checkVitals_outcome p v now st) as Hout.
  pose proof Agreement.red_band_is_critical_range as Hband.
  unfold shared_vitals in Hband. unfold VITAL_ALERT_THRESHOLDS in Hout |- *.
  pose proof (Forall_inv Hband) as B1.
  pose proof (Forall_inv (Forall_inv_tail Hband)) as B2.
  pose proof (Forall_inv (Forall_inv_tail (Forall_inv_tail Hband))) as B3.
  pose proof (Forall_inv (Forall_inv_tail (Forall_inv_tail (Forall_inv_tail Hband)))) as B4.
  pose proof (Forall_inv (Forall_inv_tail (Forall_inv_tail (Forall_inv_tail
                (Forall_inv_tail Hband))))) as B5.
  pose proof (Forall_inv Hout) as O1.
  pose proof (Forall_inv (Forall_inv_tail Hout)) as O2.
  pose proof (Forall_inv (Forall_inv_tail (Forall_inv_tail Hout))) as O3.
  pose proof (Forall_inv (Forall_inv_tail (Forall_inv_tail (Forall_inv_tail Hout)))) as O4.
  pose proof (Forall_inv (Forall_inv_tail (Forall_inv_tail (Forall_inv_tail
                (Forall_inv_tail Hout))))) as O5.
  clear Hband Hout.
  repeat (apply Forall_cons;
          [ cbv zeta; rewrite getSubScore_breakdown | ]);
    [ .. | apply Forall_nil ].
  - apply (@outcome_agrees "heartRate" _ (hr v) _ B1 O1).
  - apply (@outcome_agrees "respiratoryRate" _ (rr v) _ B2 O2).
  - apply (@outcome_agrees "systolicBP" _ (bp_sys v) _ B3 O3).
  - apply (@outcome_agrees "spo2Scale1" _ (spo2 v) _ B4 O4).
  - apply (@outcome_agrees "temperature" _ (temp v) _ B5 O5).
Qed.

End AlertAgreement.

(** X10. Colours follow the risk of a calculated result only by its total:
    the score card is red exactly for High, amber exactly for Medium and
    green for Low and for Low-Medium alike; the clinician summary marks a
    cell abnormal exactly for High; the level of the flowsheet's total row
    is 3 exactly for High, 2 exactly for Medium and 0 exactly for a total
    of 0. *)
Theorem score_colours_follow_total (v : VitalSign) :
  exists r,
    calculateNEWS2 v = Ok r /\
    let total := num_of_Z (totalScore r) in
    (NewsScoreCard.getScoreColour total = "#f44336" <-> clinicalRisk r = High) /\
    (NewsScoreCard.getScoreColour total = "#ff9800" <-> clinicalRisk r = Medium) /\
    (NewsScoreCard.getScoreColour total = "#4caf50" <->
       clinicalRisk r = Low \/ clinicalRisk r = LowMedium) /\
    (DoctorView.abnormal r = true <-> clinicalRisk r = High) /\
    (VitalSignsFlowsheet.scoreLevel total = 3 <-> clinicalRisk r = High) /\
    (VitalSignsFlowsheet.scoreLevel total = 2 <-> clinicalRisk r = Medium) /\
    (VitalSignsFlowsheet.scoreLevel total = 0 <-> totalScore r = 0).
Proof.
  rewrite calculateNEWS2_eq. eexists. split; [reflexivity |].
  cbn [subScores totalScore clinicalRisk]. cbv zeta.
  fold (total_of (breakdown v)).
  destruct (breakdown_bounds v) as [_ [_ Htot]].
  unfold NewsScoreCard.getScoreColour, DoctorView.abnormal,
    VitalSignsFlowsheet.scoreLevel, getClinicalRisk,
    CLINICAL_RISK_THRESHOLDS.high, CLINICAL_RISK_THRESHOLDS.medium.
  cbn [totalScore].
  change (Fin 7) with (Fin (inject_Z 7)). change (Fin 5) with (Fin (inject_Z 5)).
  change (Fin 1) with (Fin (inject_Z 1)).
  rewrite !num_ge_of_Z.
  destruct (Z.leb_spec 7 (total_of (breakdown v))) as [H7 | H7];
    [| destruct (Z.leb_spec 5 (total_of (breakdown v))) as [H5 | H5];
       [| destruct (Z.leb_spec 1 (total_of (breakdown v))) as [H1 | H1];
          destruct (existsb (fun s => ss_score s =? 3) (breakdown v)) ] ];
    repeat split; intros H;
    try discriminate H; try reflexivity; try lia;
    try (destruct H as [H | H]; discriminate H);
    try (left; reflexivity); try (right; reflexivity).
Qed.

Lemma map_result_total {A B} (f : A -> result B) (g : A -> B) (l : list A) :
  (forall a, f a = Ok (g a)) -> map_result f l = Ok (map g l).
Proof.
  intros Hf. induction l as [| a rest IH]; cbn [map_result map]; [reflexivity |].
  rewrite Hf, IH. reflexivity.
Qed.

(** X11. The trend graph plots one point per observation, oldest first
    (the reverse of the newest-first input), each carrying the observation's
    time stamp and total; every plotted score lies inside the axis domain
    0 to 20. *)
Theorem trend_graph_points (vitals : list VitalSign) :
  exists pts,
    ScoreTrendGraph.data vitals = Ok pts /\
    map (fun pt => (ScoreTrendGraph.time pt, ScoreTrendGraph.score pt)) pts =
      rev (map (fun v => (datetime v, total_of (breakdown v))) vitals) /\
    List.length pts = List.length vitals /\
    Forall (fun pt => fst ScoreTrendGraph.YAxis_domain <= ScoreTrendGraph.score pt
                      <= snd ScoreTrendGraph.YAxis_domain) pts.
Proof.
  exists (map (fun v => ScoreTrendGraph.mkPoint (datetime v) (total_of (breakdown v)))
              (rev vitals)).
  assert (Hdata : map_result
            (fun v => r <- calculateNEWS2 v ;;
                      Ok (ScoreTrendGraph.mkPoint (datetime v) (totalScore r)))
            (rev vitals) =
          Ok (map (fun v => ScoreTrendGraph.mkPoint (datetime v) (total_of (breakdown v)))
                  (rev vitals))).
  { apply map_result_total. intros a. rewrite calculateNEWS2_eq. reflexivity. }
  split; [| split; [| split]].
  - unfold ScoreTrendGraph.data. destruct vitals as [| v rest]; [reflexivity |].
    exact Hdata.
  - rewrite map_map, map_rev. reflexivity.
  - rewrite length_map, length_rev. reflexivity.
  - apply Forall_forall. intros pt Hin. apply in_map_iff in Hin.
    destruct Hin as [v [<- _]]. cbn.
    destruct (breakdown_bounds v) as [_ [_ Htot]]. exact Htot.
Qed.

(** X12. [useNewsScore] scores every observation, in order: the history has
    one result per observation, each the result of [calculateNEWS2]; the
    latest score is the first of the history and is absent exactly when
    there is no observation; the risk level is the risk of the latest score;
    and it is the result the deterioration and clinician views compute for
    [vitals[0]]. *)
Theorem useNewsScore_history (vitals : list VitalSign) :
  exists res,
    useNewsScore vitals = Ok res /\
    map Ok (scoreHistory res) = map calculateNEWS2 vitals /\
    List.length (scoreHistory res) = List.length vitals /\
    latestScore res = hd_error (scoreHistory res) /\
    riskLevel res = option_map clinicalRisk (latestScore res) /\
    (latestScore res = None <-> vitals = []) /\
    DoctorView.latestNews vitals = Ok (latestScore res).
Proof.
  destruct vitals as [| v rest].
  - eexists. split; [reflexivity |]. cbn. repeat split; reflexivity.
  - destruct (calculateNEWS2_returns v) as [r Hr].
    destruct (map_calculateNEWS2_returns rest) as [history [Hmap Heq]].
    eexists. unfold useNewsScore, DoctorView.latestNews. cbn [map_result].
    rewrite Hr, Hmap. cbn [bind]. split; [reflexivity |].
    cbn [scoreHistory latestScore riskLevel map hd_error option_map List.length].
    rewrite Heq, Hr.
    split; [reflexivity |]. split.
    + f_equal. rewrite <- (length_map Ok), Heq, length_map. reflexivity.
    + repeat split; try reflexivity; intros H; discriminate H.
Qed.

(** X13. The escalation level and the escalation text identify the risk:
    different risks get different levels and different texts; the level lies
    between 0 and 3 and the text is never the fallback of the switch. *)
Theorem escalation_identifies_risk (r1 r2 : ClinicalRisk) :
  (getEscalationLevel r1 = getEscalationLevel r2 <-> r1 = r2) /\
  (getEscalationRecommendation r1 = getEscalationRecommendation r2 <-> r1 = r2) /\
  0 <= getEscalationLevel r1 <= 3 /\
  getEscalationRecommendation r1 <> "Unknown risk level".
Proof.
  split; [| split; [| split]].
  - split; [| intros ->; reflexivity].
    destruct r1, r2; intros H; try reflexivity; discriminate H.
  - split; [| intros ->; reflexivity].
    destruct r1, r2; intros H; try reflexivity; discriminate H.
  - apply getEscalationLevel_range.
  - destruct r1; discriminate.
Qed.

(* ================================================================== *)
(** * The alert ledger                                                 *)
(* ================================================================== *)

Module Ledger.
Import AlertEngine AlertEngineProperties.

Lemma acknowledge_known (alertId : string) (l : list Alert) :
  existsb (fun a => String.eqb (id a) alertId) l = false ->
  map (fun a => if String.eqb (id a) alertId
                then mkAlert (id a) (type a) (severity a) (message a)
                             (timestamp a) true (patientMrn a)
                else a) l = l.
Proof.
  induction l as [| a rest IH]; cbn [existsb map]; [reflexivity |].
  intros H. apply orb_false_iff in H. destruct H as [Ha Hrest].
  rewrite Ha, (IH Hrest). reflexivity.
Qed.

(** X14. Acknowledging is idempotent and touches nothing but the flag: the
    ledger keeps its alerts in order with their ids, types, severities,
    messages, time stamps and patients, the counter is unchanged, no
    acknowledged alert becomes unacknowledged, two acknowledgements commute,
    and acknowledging an id that no alert carries leaves the store as it
    is. *)
Theorem acknowledgeAlert_only_sets_flag (i j : string) (st : AlertStore) :
  acknowledgeAlert i (acknowledgeAlert i st) = acknowledgeAlert i st /\
  acknowledgeAlert i (acknowledgeAlert j st) = acknowledgeAlert j (acknowledgeAlert i st) /\
  map content (alerts (acknowledgeAlert i st)) = map content (alerts st) /\
  alertIdCounter (acknowledgeAlert i st) = alertIdCounter st /\
  Forall2 (fun before after =>
             acknowledged after =
             acknowledged before || String.eqb (id before) i)
          (alerts st) (alerts (acknowledgeAlert i st)) /\
  (existsb (fun a => String.eqb (id a) i) (alerts st) = false ->
   acknowledgeAlert i st = st).
Proof.
  destruct st as [l c]. unfold acknowledgeAlert. cbn [alerts alertIdCounter].
  split; [| split; [| split; [| split; [reflexivity | split]]]].
  - f_equal. rewrite map_map. apply map_ext. intros a.
    destruct (String.eqb (id a) i) eqn:E; cbn [id]; rewrite E; reflexivity.
  - f_equal. rewrite !map_map. apply map_ext. intros a.
    destruct (String.eqb (id a) i) eqn:Ei, (String.eqb (id a) j) eqn:Ej;
      cbn [id]; rewrite ?Ei, ?Ej; reflexivity.
  - rewrite map_map. apply map_ext. intros a.
    destruct (String.eqb (id a) i); reflexivity.
  - induction l as [| a rest IH]; cbn [map]; constructor; [| exact IH].
    destruct (String.eqb (id a) i); cbn [acknowledged];
      [rewrite orb_true_r | rewrite orb_false_r]; reflexivity.
  - intros H. rewrite (acknowledge_known i l H). reflexivity.
Qed.

Lemma unacknowledged_after (alertId : string) (l : list Alert) :
  NoDup (map id l) ->
  (List.length
     (filter (fun a => negb (acknowledged a))
        (map (fun a => if String.eqb (id a) alertId
                       then mkAlert (id a) (type a) (severity a) (message a)
                                    (timestamp a) true (patientMrn a)
                       else a) l))
   + (if existsb (fun a => String.eqb (id a) alertId && negb (acknowledged a)) l
      then 1 else 0)
   = List.length (filter (fun a => negb (acknowledged a)) l))%nat.
Proof.
  induction l as [| a rest IH]; cbn [map filter existsb List.length]; intros Hnd;
    [reflexivity |].
  inversion Hnd as [| x xs Hnotin Hnd']. subst.
  specialize (IH Hnd').
  destruct (String.eqb_spec (id a) alertId) as [Heq | Hne].
  - assert (Hrest : existsb (fun a0 => String.eqb (id a0) alertId) rest = false).
    { destruct (existsb (fun a0 => String.eqb (id a0) alertId) rest) eqn:E; [| reflexivity].
      apply existsb_exists in E. destruct E as [b [Hin Hb]].
      apply String.eqb_eq in Hb. exfalso. apply Hnotin. rewrite Heq, <- Hb.
      apply in_map. exact Hin. }
    rewrite (acknowledge_known alertId rest Hrest).
    assert (Hpend : existsb (fun a0 => String.eqb (id a0) alertId && negb (acknowledged a0))
                            rest = false).
    { clear -Hrest. induction rest as [| b bs IHb]; [reflexivity |].
      cbn [existsb] in *. apply orb_false_iff in Hrest. destruct Hrest as [Hb Hbs].
      rewrite Hb, (IHb Hbs). reflexivity. }
    rewrite Hpend. cbn [acknowledged negb andb orb].
    destruct (acknowledged a); cbn [negb orb List.length]; lia.
  - cbn [andb orb]. destruct (negb (acknowledged a)); cbn [List.length]; lia.
Qed.

(** X15. In every session, acknowledging an id removes exactly the pending
    alert that carries it from the unacknowledged ones: their number drops
    by one when an unacknowledged alert has the id and stays the same
    otherwise. *)
Theorem acknowledgeAlert_settles_one (calls : list call) (i : string) :
  let st := run calls in
  (List.length (unacknowledged (acknowledgeAlert i st))
   + (if pending i st then 1 else 0)
   = List.length (unacknowledged st))%nat /\
  pending i (acknowledgeAlert i st) = false.
Proof.
  cbv zeta. split.
  - unfold unacknowledged, pending, acknowledgeAlert. cbn [alerts].
    apply unacknowledged_after.
    assert (Hinv : map id (alerts (run calls)) =
                   map formatAlertId (seq 1 (alertIdCounter (run calls)))).
    { unfold run. apply fold_step_invariant. reflexivity. }
    rewrite Hinv. apply NoDup_formatAlertId.
  - unfold pending, acknowledgeAlert. cbn [alerts].
    induction (alerts (run calls)) as [| a rest IH]; cbn [map existsb]; [reflexivity |].
    rewrite IH, orb_false_r.
    destruct (String.eqb (id a) i) eqn:E; cbn [id acknowledged]; rewrite E;
      [reflexivity | reflexivity].
Qed.

Lemma insert_sorted_perm {A} (cmp : A -> A -> Z) (x : A) (l : list A) :
  Permutation (insert_sorted cmp x l) (x :: l).
Proof.
  induction l as [| y rest IH]; cbn [insert_sorted]; [apply Permutation_refl |].
  destruct (cmp x y <=? 0); [apply Permutation_refl |].
  eapply Permutation_trans; [apply perm_skip, IH | apply perm_swap].
Qed.

Lemma sort_perm {A} (cmp : A -> A -> Z) (l : list A) : Permutation (sort cmp l) l.
Proof.
  induction l as [| x rest IH]; [apply Permutation_refl |].
  unfold sort in *. cbn [fold_right].
  eapply Permutation_trans; [apply insert_sorted_perm | apply perm_skip, IH].
Qed.

(** X16. Whatever the collation, [getActiveAlerts] returns the
    unacknowledged alerts of the ledger, each once and nothing else, and
    [getAllAlerts] returns all alerts of the ledger, each once; after
    [acknowledgeAlert i] no active alert carries the id [i]; after
    [clearAlerts] both lists are empty. *)
Theorem getters_list_the_ledger (localeCompare : string -> string -> Z)
    (st : AlertStore) (i : string) :
  Permutation (getActiveAlerts localeCompare st) (unacknowledged st) /\
  Permutation (getAllAlerts localeCompare st) (alerts st) /\
  Forall (fun a => acknowledged a = false /\ In a (alerts st))
         (getActiveAlerts localeCompare st) /\
  Forall (fun a => id a <> i) (getActiveAlerts localeCompare (acknowledgeAlert i st)) /\
  getActiveAlerts localeCompare (clearAlerts st) = [] /\
  getAllAlerts localeCompare (clearAlerts st) = [].
Proof.
  split; [apply sort_perm |]. split; [apply sort_perm |].
  split; [| split; [| split; reflexivity]].
  - apply Forall_forall. intros a Hin.
    apply (Permutation_in _ (sort_perm _ _)) in Hin.
    apply filter_In in Hin. destruct Hin as [Hin Hack].
    apply negb_true_iff in Hack. split; assumption.
  - apply Forall_forall. intros a Hin.
    apply (Permutation_in _ (sort_perm _ _)) in Hin.
    apply filter_In in Hin. destruct Hin as [Hin Hack].
    apply negb_true_iff in Hack.
    unfold acknowledgeAlert in Hin. cbn [alerts] in Hin.
    apply in_map_iff in Hin. destruct Hin as [b [Hb _]].
    destruct (String.eqb_spec (id b) i) as [Heq | Hne].
    + subst a. cbn [acknowledged] in Hack. discriminate Hack.
    + subst a. exact Hne.
Qed.

Lemma insert_sorted_sorted (cmp : Alert -> Alert -> Z) (x : Alert) (l : list Alert) :
  (forall a b, 0 < cmp a b -> cmp b a <= 0) ->
  (forall a b c, cmp a b <= 0 -> cmp b c <= 0 -> cmp a c <= 0) ->
  StronglySorted (fun a b => cmp a b <= 0) l ->
  StronglySorted (fun a b => cmp a b <= 0) (insert_sorted cmp x l).
Proof.
  intros Htot Htrans Hs. induction l as [| y rest IH]; cbn [insert_sorted].
  - constructor; [constructor | constructor].
  - inversion Hs as [| z zs Hrest Hy]. subst.
    destruct (Z.leb_spec (cmp x y) 0) as [Hle | Hgt].
    + constructor; [exact Hs |].
      constructor; [exact Hle |].
      apply Forall_forall. intros b Hb.
      rewrite Forall_forall in Hy. apply (Htrans x y b Hle (Hy b Hb)).
    + constructor; [apply IH; exact Hrest |].
      apply Forall_forall. intros b Hb.
      apply (Permutation_in _ (insert_sorted_perm cmp x rest)) in Hb.
      destruct Hb as [<- | Hb].
      * apply Htot. exact Hgt.
      * rewrite Forall_forall in Hy. apply Hy. exact Hb.
Qed.

Lemma sort_sorted (cmp : Alert -> Alert -> Z) (l : list Alert) :
  (forall a b, 0 < cmp a b -> cmp b a <= 0) ->
  (forall a b c, cmp a b <= 0 -> cmp b c <= 0 -> cmp a c <= 0) ->
  StronglySorted (fun a b => cmp a b <= 0) (sort cmp l).
Proof.
  intros Htot Htrans. induction l as [| x rest IH]; [constructor |].
  unfold sort in *. cbn [fold_right]. apply insert_sorted_sorted; assumption.
Qed.

(** X17. When [localeCompare] orders time stamps consistently, both getters
    return their alerts newest first: an alert never comes before one with a
    later time stamp. *)
Theorem getters_newest_first (localeCompare : string -> string -> Z) (st : AlertStore) :
  consistent localeCompare ->
  StronglySorted (fun a b => localeCompare (timestamp b) (timestamp a) <= 0)
                 (getAllAlerts localeCompare st) /\
  StronglySorted (fun a b => localeCompare (timestamp b) (timestamp a) <= 0)
                 (getActiveAlerts localeCompare st).
Proof.
  intros [Htot Htrans].
  assert (Ht : forall a b : Alert,
             0 < newest_first localeCompare a b -> newest_first localeCompare b a <= 0).
  { intros a b. unfold newest_first. apply Htot. }
  assert (Hr : forall a b c : Alert,
             newest_first localeCompare a b <= 0 -> newest_first localeCompare b c <= 0 ->
             newest_first localeCompare a c <= 0).
  { intros a b c Hab Hbc. unfold newest_first in *.
    apply (Htrans _ _ _ Hbc Hab). }
  split; apply (sort_sorted _ _ Ht Hr).
Qed.


Lemma by_length_consistent : consistent by_length.
Proof. unfold consistent, by_length. split; intros; lia. Qed.

Lemma getters_newest_first_witness :
  let st := snd (checkVitals (mkPatient "PAH599806")
                   (mkVital "t" None (Some (Fin 135)) (Some (Fin 26)) None None None
                            None None None None)
                   "2026-02-17T08:00:00.000Z" initialStore) in
  StronglySorted (fun a b => by_length (timestamp b) (timestamp a) <= 0)
                 (getAllAlerts by_length st) /\
  StronglySorted (fun a b => by_length (timestamp b) (timestamp a) <= 0)
                 (getActiveAlerts by_length st).
Proof.
  cbv zeta. apply (@getters_newest_first by_length _ by_length_consistent).
Defined.

Lemma sort_of_sorted (cmp : Alert -> Alert -> Z) (l : list Alert) :
  StronglySorted (fun a b => cmp a b <= 0) l -> sort cmp l = l.
Proof.
  induction l as [| x rest IH]; intros Hs; [reflexivity |].
  inversion Hs as [| y ys Hrest Hx]. subst.
  unfold sort in *. cbn [fold_right]. rewrite (IH Hrest).
  destruct rest as [| y rest']; [reflexivity |].
  cbn [insert_sorted]. inversion Hx as [| z zs Hxy _]. subst.
  apply Z.leb_le in Hxy. rewrite Hxy. reflexivity.
Qed.

(** X18. Ties keep the ledger order.  When all alerts of the ledger carry
    the same time stamp (as the alerts raised by one call do) and
    [localeCompare] finds that stamp equal to itself, [getAllAlerts] returns
    the ledger as it is, lowest id first, and [getActiveAlerts] returns the
    unacknowledged alerts in ledger order. *)
Theorem getters_keep_ledger_order_on_ties
    (localeCompare : string -> string -> Z) (st : AlertStore) (t : string) :
  Forall (fun a => timestamp a = t) (alerts st) ->
  localeCompare t t = 0 ->
  getAllAlerts localeCompare st = alerts st /\
  getActiveAlerts localeCompare st = unacknowledged st.
Proof.
  intros Hall Htt.
  assert (Hsorted : forall l, Forall (fun a => timestamp a = t) l ->
            StronglySorted (fun a b => newest_first localeCompare a b <= 0) l).
  { intros l Hl. induction l as [| x rest IH]; [constructor |].
    pose proof (Forall_inv Hl) as Hx. pose proof (Forall_inv_tail Hl) as Hrest.
    cbn beta in Hx.
    constructor; [apply IH; exact Hrest |].
    apply Forall_forall. intros b Hb. rewrite Forall_forall in Hrest.
    unfold newest_first. rewrite (Hrest b Hb), Hx, Htt. lia. }
  split.
  - apply sort_of_sorted, Hsorted, Hall.
  - apply sort_of_sorted, Hsorted. unfold unacknowledged.
    apply Forall_forall. intros a Ha. apply filter_In in Ha.
    rewrite Forall_forall in Hall. apply Hall. apply Ha.
Qed.

Lemma getters_keep_ledger_order_on_ties_witness :
  let st := snd (checkVitals (mkPatient "PAH599806")
                   (mkVital "t" None (Some (Fin 135)) (Some (Fin 26)) None None None
                            None None None None)
                   "2026-02-17T08:00:00.000Z" initialStore) in
  map id (getAllAlerts by_length st) = ["ALT-0001"; "ALT-0002"] /\
  getAllAlerts by_length st = alerts st /\
  getActiveAlerts by_length st = unacknowledged st.
Proof.
  cbv zeta. split; [reflexivity |].
  apply (@getters_keep_ledger_order_on_ties by_length _ "2026-02-17T08:00:00.000Z").
  - repeat constructor.
  - reflexivity.
Defined.

Lemma entry_alerts_finding (key : string) (t : VitalAlertThreshold)
    (p : Patient) (v : VitalSign) (now now' : string) (st st' : AlertStore) :
  map finding (fst (entry_alerts key t p v now st)) =
  map finding (fst (entry_alerts key t p v now' st')).
Proof.
  unfold entry_alerts, generateAlertId.
  destruct (vital_field v key) as [value |]; [| reflexivity].
  destruct (in_critical_range t value); [reflexivity |].
  destruct (in_warning_range t value); reflexivity.
Qed.

Lemma checkVitals_loop_finding (entries : list (string * VitalAlertThreshold))
    (p : Patient) (v : VitalSign) (now now' : string) (st st' : AlertStore) :
  map finding (fst (checkVitals_loop entries p v now [] st)) =
  map finding (fst (checkVitals_loop entries p v now' [] st')).
Proof.
  revert st st'. induction entries as [| [key t] rest IH]; intros st st'.
  - reflexivity.
  - rewrite !checkVitals_loop_cons, (checkVitals_loop_acc rest p v now),
      (checkVitals_loop_acc rest p v now').
    cbn [fst app]. rewrite !map_app.
    rewrite (entry_alerts_finding key t p v now now' st st').
    f_equal. apply IH.
Qed.

Lemma appends_twice_fresh (st : AlertStore) (r1 r2 : list Alert * AlertStore) :
  appends st r1 -> appends (snd r1) r2 ->
  alerts (snd r2) = alerts st ++ fst r1 ++ fst r2 /\
  NoDup (map id (fst r1 ++ fst r2)).
Proof.
  intros [Ha1 [Hc1 Hi1]] [Ha2 [Hc2 Hi2]]. split.
  - rewrite Ha2, Ha1, app_assoc. reflexivity.
  - rewrite map_app, Hi1, Hi2, Hc1.
    replace (S (alertIdCounter st + List.length (fst r1)))
      with (S (alertIdCounter st) + List.length (fst r1))%nat by lia.
    rewrite <- map_app, <- seq_app. apply NoDup_formatAlertId.
Qed.

(** X19. Nothing is deduplicated.  Checking the same observation (or the
    same score) a second time raises the same findings again, whatever
    happened to the store in between: same types, severities, messages
    and patient, under new ids; after two checks in a row the ledger holds
    both batches. *)
Theorem repeated_check_raises_again
    (p : Patient) (v : VitalSign) (score : NEWS2Result) (m now1 now2 : string)
    (st st' : AlertStore) :
  map finding (fst (checkVitals p v now2 st')) =
    map finding (fst (checkVitals p v now1 st)) /\
  map finding (fst (checkNEWSScore score m now2 st')) =
    map finding (fst (checkNEWSScore score m now1 st)) /\
  (let r1 := checkVitals p v now1 st in
   let r2 := checkVitals p v now2 (snd r1) in
   alerts (snd r2) = alerts st ++ fst r1 ++ fst r2 /\
   NoDup (map id (fst r1 ++ fst r2))) /\
  (let r1 := checkNEWSScore score m now1 st in
   let r2 := checkNEWSScore score m now2 (snd r1) in
   alerts (snd r2) = alerts st ++ fst r1 ++ fst r2 /\
   NoDup (map id (fst r1 ++ fst r2))).
Proof.
  split; [| split; [| split]].
  - rewrite !checkVitals_fst. apply checkVitals_loop_finding.
  - unfold checkNEWSScore, generateAlertId.
    destruct (riskMap (clinicalRisk score)) as [[sev ty] |];
      destruct (Nat.ltb 0 (List.length (filter (fun s => ss_score s =? 3)
                                          (subScores score)))
                && negb (is_High (clinicalRisk score)));
      reflexivity.
  - cbv zeta. apply appends_twice_fresh; apply checkVitals_appends.
  - cbv zeta. apply appends_twice_fresh; apply checkNEWSScore_appends.
Qed.

Lemma checkVitals_loop_fresh (entries : list (string * VitalAlertThreshold))
    (p : Patient) (v : VitalSign) (now : string) (st : AlertStore) :
  Forall (fun a => acknowledged a = false /\ timestamp a = now /\ patientMrn a = mrn p)
         (fst (checkVitals_loop entries p v now [] st)) /\
  (List.length (fst (checkVitals_loop entries p v now [] st)) <= List.length entries)%nat.
Proof.
  revert st. induction entries as [| [key t] rest IH]; intros st.
  - split; [constructor | simpl; lia].
  - rewrite checkVitals_loop_cons, checkVitals_loop_acc. cbn [fst app].
    destruct (IH (snd (entry_alerts key t p v now st))) as [Hall Hlen].
    assert (Hentry :
      Forall (fun a => acknowledged a = false /\ timestamp a = now /\ patientMrn a = mrn p)
             (fst (entry_alerts key t p v now st)) /\
      (List.length (fst (entry_alerts key t p v now st)) <= 1)%nat).
    { unfold entry_alerts, generateAlertId.
      destruct (vital_field v key) as [value |]; [| split; [constructor | simpl; lia]].
      destruct (in_critical_range t value);
        [| destruct (in_warning_range t value)];
        cbn [fst]; (split; [repeat constructor | simpl; lia]). }
    destruct Hentry as [He Hel]. split.
    + apply Forall_app. split; assumption.
    + rewrite length_app. cbn [List.length]. lia.
Qed.

(** X20. Every alert a check returns is new: unacknowledged, stamped with the
    time of the call and filed under the patient of the call.  One call of
    [checkVitals] returns at most five alerts, one call of [checkNEWSScore]
    at most two. *)
Theorem raised_alerts_are_fresh
    (p : Patient) (v : VitalSign) (score : NEWS2Result) (m now : string)
    (st : AlertStore) :
  Forall (fun a => acknowledged a = false /\ timestamp a = now /\ patientMrn a = mrn p)
         (fst (checkVitals p v now st)) /\
  (List.length (fst (checkVitals p v now st)) <= 5)%nat /\
  Forall (fun a => acknowledged a = false /\ timestamp a = now /\ patientMrn a = m)
         (fst (checkNEWSScore score m now st)) /\
  (List.length (fst (checkNEWSScore score m now st)) <= 2)%nat.
Proof.
  rewrite checkVitals_fst.
  destruct (checkVitals_loop_fresh VITAL_ALERT_THRESHOLDS p v now st) as [Hall Hlen].
  split; [exact Hall |]. split; [exact Hlen |].
  unfold checkNEWSScore, generateAlertId.
  destruct (riskMap (clinicalRisk score)) as [[sev ty] |];
    destruct (Nat.ltb 0 (List.length (filter (fun s => ss_score s =? 3)
                                        (subScores score)))
              && negb (is_High (clinicalRisk score)));
    cbn [fst app List.length]; (split; [repeat constructor | lia]).
Qed.

(** X21. From observation to score alerts: when the result of
    [calculateNEWS2] is passed to [checkNEWSScore], a Low result raises no
    alert, a Low-Medium result always raises two (the info alert and the
    red-parameter warning), a Medium result one or two (two exactly when a
    sub-score equals 3) and a High result exactly one. *)
Theorem calculated_score_alert_count
    (v : VitalSign) (m now : string) (st : AlertStore) :
  exists r,
    calculateNEWS2 v = Ok r /\
    List.length (fst (checkNEWSScore r m now st)) =
      match clinicalRisk r with
      | Low => 0%nat
      | LowMedium => 2%nat
      | Medium => if has_red_subscore r then 2%nat else 1%nat
      | High => 1%nat
      end.
Proof.
  rewrite calculateNEWS2_eq. eexists. split; [reflexivity |].
  unfold checkNEWSScore, generateAlertId, has_red_subscore.
  cbn [subScores clinicalRisk totalScore escalationLevel].
  rewrite filter_nonempty_existsb.
  unfold getClinicalRisk.
  destruct (num_ge (num_of_Z (fold_left (fun sum s => sum + ss_score s) (breakdown v) 0))
                   CLINICAL_RISK_THRESHOLDS.high);
    [| destruct (num_ge (num_of_Z (fold_left (fun sum s => sum + ss_score s)
                                             (breakdown v) 0))
                        CLINICAL_RISK_THRESHOLDS.medium) ];
    destruct (existsb (fun s => ss_score s =? 3) (breakdown v)); reflexivity.
Qed.

Lemma critical_range_within_warning_range :
  Forall (fun e => forall value : number,
            in_critical_range (snd e) value = true ->
            in_warning_range (snd e) value = true)
         VITAL_ALERT_THRESHOLDS.
Proof.
  unfold VITAL_ALERT_THRESHOLDS.
  repeat (apply Forall_cons;
    [ intros value; cbn [snd];
      unfold in_critical_range, in_warning_range, at_or_below, at_or_above;
      cbn [criticalLow criticalHigh warningLow warningHigh];
      destruct value as [| | | q];
      [ intros H; vm_compute in H |- *; first [discriminate H | reflexivity]
      | intros H; vm_compute in H |- *; first [discriminate H | reflexivity]
      | intros H; vm_compute in H |- *; first [discriminate H | reflexivity]
      | cbv [num_ge num_le]; cbn [orb];
        intros H; revert H;
        repeat Agreement.split_comparison; cbn; intros H;
        first [ reflexivity | discriminate H ] ]
    | ]).
  apply Forall_nil.
Qed.

(** X22. The critical limits lie beyond the warning limits for all five
    parameters, so one call of [checkVitals] raises an alert for a present
    parameter exactly when its value is at or beyond a warning limit; a
    value strictly inside the warning limits, or an absent field, raises
    nothing. *)
Theorem vital_alert_iff_beyond_warning_limit
    (p : Patient) (v : VitalSign) (now : string) (st : AlertStore) :
  Forall (fun e =>
            let raised := fst (checkVitals p v now st) in
            match vital_field v (fst e) with
            | Some value =>
                (alerts_about (label (snd e)) raised = [] <->
                 in_warning_range (snd e) value = false) /\
                (in_critical_range (snd e) value = true ->
                 in_warning_range (snd e) value = true)
            | None => alerts_about (label (snd e)) raised = []
            end)
         VITAL_ALERT_THRESHOLDS.
Proof.
  pose proof (AlertAgreement.checkVitals_outcome p v now st) as Hout.
  pose proof critical_range_within_warning_range as Hnest.
  rewrite Forall_forall in *. intros e He. cbv zeta.
  specialize (Hout e He). specialize (Hnest e He).
  destruct (vital_field v (fst e)) as [value |]; cbn [vital_outcome] in Hout.
  - split; [| apply Hnest].
    specialize (Hnest value). split.
    + intros Hnil. rewrite Hnil in Hout. cbn [map] in Hout.
      destruct (in_critical_range (snd e) value); [discriminate Hout |].
      destruct (in_warning_range (snd e) value); [discriminate Hout | reflexivity].
    + intros Hw. rewrite Hw in *.
      destruct (in_critical_range (snd e) value).
      * specialize (Hnest eq_refl). discriminate Hnest.
      * apply map_eq_nil in Hout. exact Hout.
  - apply map_eq_nil in Hout. exact Hout.
Qed.

End Ledger.

(* ================================================================== *)
(** * The logger's ring buffer                                         *)
(* ================================================================== *)

Module LoggerProperties.
Import Logger.

Lemma cap_push {A} (cap n : nat) (es : list A) (e : A) :
  n = List.length es ->
  (let logs := skipn (n - cap) es ++ [e] in
   if Nat.ltb cap (List.length logs)
   then skipn (List.length logs - cap) logs
   else logs) = skipn (S n - cap) (es ++ [e]).
Proof.
  intros Hn. cbv zeta.
  assert (Hlen : List.length (skipn (n - cap) es ++ [e]) = S (n - (n - cap))).
  { rewrite length_app, length_skipn, <- Hn. simpl. lia. }
  rewrite Hlen.
  destruct (Nat.ltb_spec cap (S (n - (n - cap)))) as [Hlt | Hge].
  - assert (Hcap : (cap <= n)%nat) by lia.
    replace (S (n - (n - cap)) - cap)%nat with 1%nat by lia.
    replace (S n - cap)%nat with (1 + (n - cap))%nat by lia.
    rewrite <- skipn_skipn. f_equal.
    rewrite skipn_app.
    replace (n - cap - List.length es)%nat with 0%nat by lia.
    reflexivity.
  - assert (Hcap : (n < cap)%nat) by lia.
    replace (n - cap)%nat with 0%nat by lia.
    replace (S n - cap)%nat with 0%nat by lia.
    reflexivity.
Qed.

(** X23. The log buffer is a ring of 1000 entries: after any run of log
    calls from the empty buffer it holds the last 1000 entries logged (all
    of them while there are at most 1000), in the order they were logged, so
    it never grows beyond 1000 and the newest entry is always its last. *)
Theorem log_buffer_keeps_last_thousand (D : Type) (entries : list (LogEntry D)) :
  logged entries = skipn (List.length entries - 1000) entries /\
  (List.length (logged entries) <= 1000)%nat /\
  List.length (logged entries) = Nat.min (List.length entries) 1000 /\
  (forall dflt, last (logged entries) dflt = last entries dflt).
Proof.
  assert (Hrun : logged entries = skipn (List.length entries - 1000) entries).
  { unfold logged, log. generalize 1000%nat. intros cap.
    induction entries as [| e es IH] using rev_ind; [destruct cap; reflexivity |].
    rewrite fold_left_app. cbn [fold_left]. rewrite IH.
    replace (List.length (es ++ [e]) - cap)%nat with (S (List.length es) - cap)%nat
      by (rewrite length_app; cbn [List.length]; lia).
    destruct e as [t l m d]. cbn [timestamp level message data].
    exact (cap_push cap es (mkEntry t l m d) eq_refl). }
  split; [exact Hrun |].
  split; [rewrite Hrun, length_skipn; lia |].
  split; [rewrite Hrun, length_skipn; lia |].
  intros dflt. rewrite Hrun.
  assert (Hlast : forall cap, (1 <= cap)%nat ->
            last (skipn (List.length entries - cap) entries) dflt = last entries dflt).
  { intros cap Hcap.
    induction entries as [| e es _] using rev_ind; [destruct cap; reflexivity |].
    rewrite length_app. cbn [List.length]. rewrite skipn_app.
    replace (List.length es + 1 - cap - List.length es)%nat with 0%nat by lia.
    cbn [skipn]. rewrite !last_last. reflexivity. }
  apply Hlast. lia.
Qed.

End LoggerProperties.

(* ================================================================== *)
(** * Clock formatting                                                 *)
(* ================================================================== *)

Module ClockProperties.
Import Clock.

Lemma pad2_reads_back (n : nat) :
  option_map Nat.of_uint (NilEmpty.uint_of_string (pad2 n)) = Some n.
Proof.
  unfold pad2, AlertEngine.padStart, AlertEngine.String_of.
  destruct (@AlertEngineProperties.uint_of_string_zeros
              (2 - String.length (NilEmpty.string_of_uint (Nat.to_uint n))) _ _
              (NilEmpty.usu (Nat.to_uint n))) as [d' [Hd' Heq]].
  rewrite Hd'. cbn [option_map]. rewrite Heq, DecimalNat.Unsigned.of_to. reflexivity.
Qed.

Lemma pad2_inj (m n : nat) : pad2 m = pad2 n -> m = n.
Proof.
  intros H. apply (f_equal (fun s => option_map Nat.of_uint (NilEmpty.uint_of_string s))) in H.
  rewrite !pad2_reads_back in H. congruence.
Qed.

Lemma pad2_two_characters (n : nat) :
  (n < 100)%nat -> exists a b, pad2 n = String a (String b EmptyString).
Proof.
  intros Hn.
  assert (Hall : forallb (fun k => Nat.eqb (String.length (pad2 k)) 2) (seq 0 100) = true)
    by (vm_compute; reflexivity).
  rewrite forallb_forall in Hall.
  assert (Hlen : String.length (pad2 n) = 2%nat).
  { apply Nat.eqb_eq, Hall, in_seq. lia. }
  destruct (pad2 n) as [| a [| b [| c rest]]]; try discriminate Hlen.
  exists a, b. reflexivity.
Qed.

(** X24. For valid dates [formatTime] is fixed-width and loses nothing: the
    text has exactly 8 characters, and two dates get the same text exactly
    when they agree on hours, minutes and seconds. *)
Theorem formatTime_fixed_width_injective (d1 d2 : Date) :
  valid d1 = true ->
  valid d2 = true ->
  String.length (formatTime d1) = 8%nat /\
  (formatTime d1 = formatTime d2 <-> time_of_day d1 = time_of_day d2).
Proof.
  unfold valid, formatTime, time_of_day. intros V1 V2.
  repeat (apply andb_true_iff in V1; destruct V1 as [V1 ?]).
  repeat (apply andb_true_iff in V2; destruct V2 as [V2 ?]).
  repeat match goal with
         | H : Nat.ltb _ _ = true |- _ => apply Nat.ltb_lt in H
         | H : Nat.leb _ _ = true |- _ => apply Nat.leb_le in H
         end.
  destruct (@pad2_two_characters (getHours d1) ltac:(lia)) as [a1 [b1 Eh1]].
  destruct (@pad2_two_characters (getMinutes d1) ltac:(lia)) as [a2 [b2 Em1]].
  destruct (@pad2_two_characters (getSeconds d1) ltac:(lia)) as [a3 [b3 Es1]].
  destruct (@pad2_two_characters (getHours d2) ltac:(lia)) as [a4 [b4 Eh2]].
  destruct (@pad2_two_characters (getMinutes d2) ltac:(lia)) as [a5 [b5 Em2]].
  destruct (@pad2_two_characters (getSeconds d2) ltac:(lia)) as [a6 [b6 Es2]].
  split.
  - rewrite Eh1, Em1, Es1. reflexivity.
  - split.
    + intros Heq.
      assert (Hh : pad2 (getHours d1) = pad2 (getHours d2) /\
                   pad2 (getMinutes d1) = pad2 (getMinutes d2) /\
                   pad2 (getSeconds d1) = pad2 (getSeconds d2)).
      { rewrite Eh1, Em1, Es1, Eh2, Em2, Es2 in *. cbn [String.append] in Heq.
        injection Heq as -> -> -> -> -> ->. repeat split. }
      destruct Hh as [Hh [Hm Hs]].
      apply pad2_inj in Hh. apply pad2_inj in Hm. apply pad2_inj in Hs.
      rewrite Hh, Hm, Hs. reflexivity.
    + intros Heq. injection Heq as -> -> ->. reflexivity.
Qed.

Lemma formatTime_fixed_width_injective_witness :
  String.length (formatTime (mkDate 2026 1 17 8 45 12)) = 8%nat /\
  (formatTime (mkDate 2026 1 17 8 45 12) = formatTime (mkDate 2026 1 18 8 45 12) <->
   time_of_day (mkDate 2026 1 17 8 45 12) = time_of_day (mkDate 2026 1 18 8 45 12)).
Proof.
  apply (@formatTime_fixed_width_injective
           (mkDate 2026 1 17 8 45 12) (mkDate 2026 1 18 8 45 12)); reflexivity.
Defined.

Lemma String_of_inj (m n : nat) :
  AlertEngine.String_of m = AlertEngine.String_of n -> m = n.
Proof.
  unfold AlertEngine.String_of. intros H.
  apply (f_equal NilEmpty.uint_of_string) in H. rewrite !NilEmpty.usu in H.
  injection H as H. apply DecimalNat.Unsigned.to_uint_inj. exact H.
Qed.

Lemma month_three_characters (m : nat) :
  (m < 12)%nat ->
  exists a b c, nth m MONTHS "undefined" = String a (String b (String c EmptyString)).
Proof.
  intros Hm. do 12 (destruct m as [| m]; [do 3 eexists; reflexivity |]). lia.
Qed.

Lemma month_inj (m n : nat) :
  (m < 12)%nat -> (n < 12)%nat ->
  nth m MONTHS "undefined" = nth n MONTHS "undefined" -> m = n.
Proof.
  intros Hm Hn.
  do 12 (destruct m as [| m];
         [ do 12 (destruct n as [| n]; [intros H; first [reflexivity | discriminate H] |]);
           lia |]).
  lia.
Qed.

(** X25. For valid dates [formatDate] loses nothing either: two dates get
    the same "DD-Mon-YYYY" text exactly when they agree on day, month and
    year. *)
Theorem formatDate_injective (d1 d2 : Date) :
  valid d1 = true ->
  valid d2 = true ->
  (formatDate d1 = formatDate d2 <->
   (getDate d1, getMonth d1, getFullYear d1) = (getDate d2, getMonth d2, getFullYear d2)).
Proof.
  unfold valid, formatDate. intros V1 V2.
  repeat (apply andb_true_iff in V1; destruct V1 as [V1 ?]).
  repeat (apply andb_true_iff in V2; destruct V2 as [V2 ?]).
  repeat match goal with
         | H : Nat.ltb _ _ = true |- _ => apply Nat.ltb_lt in H
         | H : Nat.leb _ _ = true |- _ => apply Nat.leb_le in H
         end.
  destruct (@pad2_two_characters (getDate d1) ltac:(lia)) as [a1 [b1 Ed1]].
  destruct (@pad2_two_characters (getDate d2) ltac:(lia)) as [a2 [b2 Ed2]].
  destruct (@month_three_characters (getMonth d1) ltac:(lia)) as [x1 [y1 [z1 Em1]]].
  destruct (@month_three_characters (getMonth d2) ltac:(lia)) as [x2 [y2 [z2 Em2]]].
  split.
  - intros Heq.
    assert (Hparts : pad2 (getDate d1) = pad2 (getDate d2) /\
                     nth (getMonth d1) MONTHS "undefined" =
                       nth (getMonth d2) MONTHS "undefined" /\
                     AlertEngine.String_of (getFullYear d1) =
                       AlertEngine.String_of (getFullYear d2)).
    { rewrite Ed1, Ed2, Em1, Em2 in *. cbn [String.append] in Heq.
      injection Heq as -> -> -> -> -> Hy. repeat split. exact Hy. }
    destruct Hparts as [Hd [Hm Hy]].
    apply pad2_inj in Hd. apply month_inj in Hm; [| lia | lia].
    apply String_of_inj in Hy. rewrite Hd, Hm, Hy. reflexivity.
  - intros Heq. injection Heq as -> -> ->. reflexivity.
Qed.

Lemma formatDate_injective_witness :
  formatDate (mkDate 2026 1 17 8 45 12) = "17-Feb-2026" /\
  (formatDate (mkDate 2026 1 17 8 45 12) = formatDate (mkDate 2026 1 17 9 0 0) <->
   (17, 1, 2026)%nat = (17, 1, 2026)%nat).
Proof.
  split; [reflexivity |].
  apply (@formatDate_injective
           (mkDate 2026 1 17 8 45 12) (mkDate 2026 1 17 9 0 0)); reflexivity.
Defined.

End ClockProperties.
